(** * Notes feature: a shallow embedding of the front-end logic

    The development follows the TypeScript sources of the notes feature:

    - [NoteModel]            domain/note/note.model.ts
    - [NoteUpdate]           domain/note/note-update.service.ts
    - [NotesPage]            pages/notes-page/notes-page.component.ts
    - [NoteSearch]           services/note-search.service.ts
    - [NoteHomePage]         pages/note-home-page/note-home-page.component.ts

    JavaScript strings are modelled by [string] (one character per code
    unit), integral JavaScript numbers by [Z], arrays by [list], plain
    objects used as dictionaries by [gmap string _], and objects that are
    only compared by identity by their reference. *)

From Stdlib Require Import ZArith Lia Ascii.
From stdpp Require Import gmap strings list pretty.

Open Scope Z_scope.

(** ** app.constants *)

Module AppConstants.

(** Modelled from the spec: app.constants.ts is not part of the sources; the
    spec gives the title length range as 5 to 65, and the unit tests of the
    note model expect the messages with 5 and 65. *)
Definition MIN_CHARS_IN_NOTE_TITLE : Z := 5.

(** Modelled from the spec: see [MIN_CHARS_IN_NOTE_TITLE]. *)
Definition MAX_CHARS_IN_NOTE_TITLE : Z := 65.

End AppConstants.

(** ** domain/note/note.model.ts *)

Module NoteModel.

Record NoteBackendDict := {
  id : string;
  displayed_author_name : string;
  title : string;
  subtitle : string;
  content : string;
  url_fragment : string;
  last_updated : option string;
  published_on : option string;
}.

Record NoteData := {
  _id : string;
  _displayedAuthorName : string;
  _title : string;
  _subtitle : string;
  _content : string;
  _urlFragment : string;
  _lastUpdated : option string;
  _publishedOn : option string;
}.

(** The setters [set title], [set subtitle] and [set content]. *)
Definition set_title (n : NoteData) (title : string) : NoteData :=
  {| _id := _id n; _displayedAuthorName := _displayedAuthorName n;
     _title := title; _subtitle := _subtitle n; _content := _content n;
     _urlFragment := _urlFragment n; _lastUpdated := _lastUpdated n;
     _publishedOn := _publishedOn n |}.

Definition set_subtitle (n : NoteData) (subtitle : string) : NoteData :=
  {| _id := _id n; _displayedAuthorName := _displayedAuthorName n;
     _title := _title n; _subtitle := subtitle; _content := _content n;
     _urlFragment := _urlFragment n; _lastUpdated := _lastUpdated n;
     _publishedOn := _publishedOn n |}.

Definition set_content (n : NoteData) (content : string) : NoteData :=
  {| _id := _id n; _displayedAuthorName := _displayedAuthorName n;
     _title := _title n; _subtitle := _subtitle n; _content := content;
     _urlFragment := _urlFragment n; _lastUpdated := _lastUpdated n;
     _publishedOn := _publishedOn n |}.

Definition createFromBackendDict (noteBackendDict : NoteBackendDict) : NoteData :=
  {| _id := id noteBackendDict;
     _displayedAuthorName := displayed_author_name noteBackendDict;
     _title := title noteBackendDict;
     _subtitle := subtitle noteBackendDict;
     _content := content noteBackendDict;
     _urlFragment := url_fragment noteBackendDict;
     _lastUpdated := last_updated noteBackendDict;
     _publishedOn := published_on noteBackendDict |}.

(** [s.length] *)
Definition js_length (s : string) : Z := Z.of_nat (String.length s).

(** [issues.push(x)] *)
Definition push {A} (issues : list A) (x : A) : list A := issues ++ [x].

Definition msg_title_empty : string := "Note title should not be empty.".
Definition msg_title_invalid : string := "Note title contains invalid characters.".
Definition msg_title_short : string :=
  "Note title should not be less than " +:+
  pretty AppConstants.MIN_CHARS_IN_NOTE_TITLE +:+ " characters.".
Definition msg_title_long : string :=
  "Note title should not be more than " +:+
  pretty AppConstants.MAX_CHARS_IN_NOTE_TITLE +:+ " characters.".
Definition msg_content_empty : string := "Note content should not be empty.".
Definition msg_title_exceeds : string :=
  "Note title should not exceed " +:+
  pretty AppConstants.MAX_CHARS_IN_NOTE_TITLE +:+ " characters.".

Section Validate.

(** [new RegExp(AppConstants.VALID_NOTE_TITLE_REGEX).test]: the pattern is a
    constant of app.constants.ts, which is not part of the sources, so the
    test is a parameter of the validation. *)
Variable validTitleRegex_test : string -> bool.

Definition validate (n : NoteData) : list string :=
  let issues : list string := [] in
  let issues :=
    if String.eqb (_title n) "" then
      push issues msg_title_empty
    else if negb (validTitleRegex_test (_title n)) then
      push issues msg_title_invalid
    else if js_length (_title n) <? AppConstants.MIN_CHARS_IN_NOTE_TITLE then
      push issues msg_title_short
    else if AppConstants.MAX_CHARS_IN_NOTE_TITLE <? js_length (_title n) then
      push issues msg_title_long
    else issues in
  let issues :=
    if String.eqb (_content n) "" then push issues msg_content_empty
    else issues in
  issues.

(** [maxTags] is a parameter of the method that its body does not use. *)
Definition prepublishValidate (maxTags : Z) (n : NoteData) : list string :=
  let issues : list string := [] in
  let issues :=
    if String.eqb (_title n) "" then
      push issues msg_title_empty
    else if negb (validTitleRegex_test (_title n)) then
      push issues msg_title_invalid
    else if AppConstants.MAX_CHARS_IN_NOTE_TITLE <? js_length (_title n) then
      push issues msg_title_exceeds
    else if js_length (_title n) <? AppConstants.MIN_CHARS_IN_NOTE_TITLE then
      push issues msg_title_short
    else issues in
  let issues :=
    if String.eqb (_content n) "" then push issues msg_content_empty
    else issues in
  issues.

End Validate.

(** The note of the unit tests, with a title and a content the caller chooses. *)
Definition sample_note (title content : string) : NoteData :=
  createFromBackendDict
    {| id := "sampleId"; displayed_author_name := "testUsername";
       title := title; subtitle := "samplesubTitle"; content := content;
       url_fragment := "sampleUrl"; last_updated := Some "3454354354";
       published_on := Some "3454354354" |}.

End NoteModel.

(** ** domain/note/note-update.service.ts *)

Module NoteUpdate.

Import NoteModel.

(** [NoteChangeDict] is a plain object with the optional keys [title],
    [subtitle] and [content]; it is modelled as a dictionary so that the
    set of keys is something one can state facts about. *)
Record NoteUpdateService := {
  changeDict : gmap string string;
}.

(** The state the methods act on: the note passed by reference and the
    service instance. *)
Definition state : Type := NoteData * NoteUpdateService.

(** A freshly injected service: [changeDict: NoteChangeDict = {}]. *)
Definition new_service : NoteUpdateService := {| changeDict := ∅ |}.

Definition setNoteTitle (title : string) (st : state) : state :=
  let '(note, this) := st in
  let note := set_title note title in
  (note, {| changeDict := <["title" := title]> (changeDict this) |}).

Definition setNoteSubtitle (subtitle : string) (st : state) : state :=
  let '(note, this) := st in
  let note := set_subtitle note subtitle in
  (note, {| changeDict := <["subtitle" := subtitle]> (changeDict this) |}).

Definition setNoteContent (content : string) (st : state) : state :=
  let '(note, this) := st in
  let note := set_content note content in
  (note, {| changeDict := <["content" := content]> (changeDict this) |}).

Definition getNoteChangeDict (this : NoteUpdateService) : gmap string string :=
  changeDict this.

Definition setNoteChangeDictToDefault (this : NoteUpdateService) : NoteUpdateService :=
  {| changeDict := ∅ |}.

(** A call of one of the three setters. *)
Inductive mutation :=
| SetNoteTitle (title : string)
| SetNoteSubtitle (subtitle : string)
| SetNoteContent (content : string).

Definition apply_mutation (st : state) (m : mutation) : state :=
  match m with
  | SetNoteTitle t => setNoteTitle t st
  | SetNoteSubtitle s => setNoteSubtitle s st
  | SetNoteContent c => setNoteContent c st
  end.

(** The setters called one after the other, first to last. *)
Definition apply_mutations (ms : list mutation) (st : state) : state :=
  fold_left apply_mutation ms st.

(** The specification's side: the field a mutation writes, and the last
    value a sequence of mutations gives to a field, if any. *)
Definition mutated_field (m : mutation) : string :=
  match m with
  | SetNoteTitle _ => "title"
  | SetNoteSubtitle _ => "subtitle"
  | SetNoteContent _ => "content"
  end.

Definition mutation_value (m : mutation) : string :=
  match m with
  | SetNoteTitle v | SetNoteSubtitle v | SetNoteContent v => v
  end.

Fixpoint last_set_value (field : string) (ms : list mutation) : option string :=
  match ms with
  | [] => None
  | m :: ms' =>
      match last_set_value field ms' with
      | Some v => Some v
      | None =>
          if String.eqb (mutated_field m) field then Some (mutation_value m)
          else None
      end
  end.

Definition mutated_fields (ms : list mutation) : gset string :=
  list_to_set (mutated_field <$> ms).

End NoteUpdate.

(** ** pages/notes-page/notes-page.component.ts *)

Module NotesPage.

(** A [NoteSummary] object is only moved around and compared with [===]
    (by [Array.prototype.indexOf]), so it is represented by its reference. *)
Definition NoteSummary : Type := nat.

(** [NoteData] of domain/note/note-page-backend-api.service.ts.  The two
    arrays are distinct objects: [fetchNoteDataAsync] builds each one with
    its own [map]. *)
Record NoteData := {
  numOfPublishedNotes : Z;
  numOfDraftNotes : Z;
  publishedNoteSummaryDicts : list NoteSummary;
  draftNoteSummaryDicts : list NoteSummary;
}.

(** [arr.indexOf(x)]: the first index holding [x], or [-1]. *)
Fixpoint indexOf (arr : list NoteSummary) (x : NoteSummary) : Z :=
  match arr with
  | [] => -1
  | y :: arr' =>
      if Nat.eqb y x then 0
      else let i := indexOf arr' x in if i <? 0 then -1 else i + 1
  end.

(** [arr.splice(index, 1)] for [index > -1]: the array without the element
    at [index] (unchanged when [index] is past the end). *)
Definition splice1 (arr : list NoteSummary) (index : Z) : list NoteSummary :=
  take (Z.to_nat index) arr ++ drop (S (Z.to_nat index)) arr.

(** [arr.unshift(x)] *)
Definition unshift (arr : list NoteSummary) (x : NoteSummary) : list NoteSummary :=
  x :: arr.

Definition unpublishedNotesPost (noteData : NoteData) (noteSummary : NoteSummary)
  : NoteData :=
  let summaryDicts := publishedNoteSummaryDicts noteData in
  let index := indexOf summaryDicts noteSummary in
  let summaryDicts :=
    if -1 <? index then splice1 summaryDicts index else summaryDicts in
  {| publishedNoteSummaryDicts := summaryDicts;
     draftNoteSummaryDicts := unshift (draftNoteSummaryDicts noteData) noteSummary;
     numOfDraftNotes := numOfDraftNotes noteData + 1;
     numOfPublishedNotes := numOfPublishedNotes noteData - 1 |}.

Definition removeNotesPost (noteData : NoteData) (notesPostSummary : NoteSummary)
    (notesPostWasPublished : bool) : NoteData :=
  if notesPostWasPublished then
    let summaryDicts := publishedNoteSummaryDicts noteData in
    let index := indexOf summaryDicts notesPostSummary in
    {| publishedNoteSummaryDicts :=
         if -1 <? index then splice1 summaryDicts index else summaryDicts;
       draftNoteSummaryDicts := draftNoteSummaryDicts noteData;
       numOfDraftNotes := numOfDraftNotes noteData;
       numOfPublishedNotes := numOfPublishedNotes noteData - 1 |}
  else
    let summaryDicts := draftNoteSummaryDicts noteData in
    let index := indexOf summaryDicts notesPostSummary in
    {| publishedNoteSummaryDicts := publishedNoteSummaryDicts noteData;
       draftNoteSummaryDicts :=
         if -1 <? index then splice1 summaryDicts index else summaryDicts;
       numOfDraftNotes := numOfDraftNotes noteData - 1;
       numOfPublishedNotes := numOfPublishedNotes noteData |}.

(** The counters agree with the lists they count. *)
Definition counts_match (noteData : NoteData) : Prop :=
  numOfPublishedNotes noteData =
    Z.of_nat (length (publishedNoteSummaryDicts noteData)) /\
  numOfDraftNotes noteData =
    Z.of_nat (length (draftNoteSummaryDicts noteData)).

End NotesPage.

(** ** domain/note/note-homepage-backend-api.service.ts (data only) *)

Module NoteHomePageBackendApi.

Definition NoteSummary : Type := NotesPage.NoteSummary.

(** A value of type [number | null]. *)
Inductive number_or_null :=
| Null
| Number (n : Z).

(** JavaScript truthiness of a [number | null]: [null] and [0] are falsy. *)
Definition truthy (v : number_or_null) : bool :=
  match v with
  | Null => false
  | Number n => negb (n =? 0)
  end.

Record SearchResponseData := {
  searchOffset : number_or_null;
  noteSummariesList : list NoteSummary;
}.

Record NoteHomePageData := {
  numOfPublishedNotes : Z;
  noteSummaryDicts : list NoteSummary;
}.

(** The rejection value of a fetch, as the handlers read it:
    [errorResponse.status] and [errorResponse.error.error]. *)
Record ErrorResponse := {
  status : Z;
  error_error : string;
}.

End NoteHomePageBackendApi.

(** ** String methods of the host environment *)

Module JsString.

(** [s.substring(n)]: the string without its first [n] characters. *)
Fixpoint substring_from (n : nat) (s : string) : string :=
  match n, s with
  | O, _ => s
  | S n', String _ s' => substring_from n' s'
  | S _, EmptyString => EmptyString
  end.

(** [s.split(sep)] for a separator of one character: the pieces between
    the separators, at least one. *)
Fixpoint split (sep : Ascii.ascii) (s : string) : list string :=
  match s with
  | EmptyString => [EmptyString]
  | String c s' =>
      if Ascii.eqb c sep then EmptyString :: split sep s'
      else
        match split sep s' with
        | piece :: pieces => String c piece :: pieces
        | [] => [String c EmptyString]
        end
  end.

(** [s.includes(c)] for one character. *)
Fixpoint includes (c : Ascii.ascii) (s : string) : bool :=
  match s with
  | EmptyString => false
  | String c' s' => Ascii.eqb c' c || includes c s'
  end.

(** [s.startsWith(p)] *)
Definition startsWith (s p : string) : bool := String.prefix p s.

End JsString.

(** ** services/note-search.service.ts *)

Module NoteSearch.

Export NoteHomePageBackendApi.

Record NotePostSearchService := {
  (** [None] while the field has not been assigned ([undefined]). *)
  _lastQuery : option string;
  (** [None] while the field has not been assigned ([undefined]). *)
  _searchOffset : option number_or_null;
  _isCurrentlyFetchingResults : bool;
  numSearchesInProgress : Z;
}.

(** The service as the injector creates it. *)
Definition new_service : NotePostSearchService :=
  {| _lastQuery := None; _searchOffset := None;
     _isCurrentlyFetchingResults := false; numSearchesInProgress := 0 |}.

Definition set_lastQuery (this : NotePostSearchService) (q : string) :=
  {| _lastQuery := Some q; _searchOffset := _searchOffset this;
     _isCurrentlyFetchingResults := _isCurrentlyFetchingResults this;
     numSearchesInProgress := numSearchesInProgress this |}.

Definition set_searchOffset (this : NotePostSearchService) (o : number_or_null) :=
  {| _lastQuery := _lastQuery this; _searchOffset := Some o;
     _isCurrentlyFetchingResults := _isCurrentlyFetchingResults this;
     numSearchesInProgress := numSearchesInProgress this |}.

Definition set_isCurrentlyFetchingResults (this : NotePostSearchService) (b : bool) :=
  {| _lastQuery := _lastQuery this; _searchOffset := _searchOffset this;
     _isCurrentlyFetchingResults := b;
     numSearchesInProgress := numSearchesInProgress this |}.

Definition set_numSearchesInProgress (this : NotePostSearchService) (n : Z) :=
  {| _lastQuery := _lastQuery this; _searchOffset := _searchOffset this;
     _isCurrentlyFetchingResults := _isCurrentlyFetchingResults this;
     numSearchesInProgress := n |}.

(** The types of the closures a caller passes to the service. *)
Record callback_types := {
  SuccessCallback : Type;   (* () => void *)
  ErrorCallback : Type;     (* (reason: string) => void *)
  DataCallback : Type;      (* (SearchResponseData) => void *)
  FailureCallback : Type;   (* (arg0: boolean) => void *)
}.

(** Callers whose closures are known by a number only. *)
Definition numbered_callbacks : callback_types :=
  {| SuccessCallback := nat; ErrorCallback := nat;
     DataCallback := nat; FailureCallback := nat |}.

Section Service.

Variable C : callback_types.

(** [encodeURIComponent] of the host environment. *)
Variable encodeURIComponent : string -> string.

(** What is chained with [.then] on the promise of a fetch. *)
Inductive continuation :=
| ExecuteSearchQuery_then (searchQuery : string) (errorCallback : option (ErrorCallback C))
| LoadMoreData_then (successCallback : option (DataCallback C)).

(** What a method of the service does to the outside, in program order. *)
Inductive action :=
| FetchNoteSearchResultAsync (queryUrl : string) (k : continuation)
| CallSuccess (cb : SuccessCallback C)
| CallError (cb : ErrorCallback C) (reason : string)
| CallData (cb : DataCallback C) (data : SearchResponseData)
| CallFailure (cb : FailureCallback C) (arg0 : bool)
| EmitInitialSearchResultsLoaded (response : SearchResponseData).

Definition hasReachedLastPage (this : NotePostSearchService) : bool :=
  match _searchOffset this with
  | Some Null => true
  | _ => false
  end.

Definition getQueryUrl (searchUrlQueryString : string) : string :=
  "?q=" +:+ searchUrlQueryString.

Definition getSearchUrlQueryString (searchQuery : string) : string :=
  encodeURIComponent searchQuery.

Definition isSearchInProgress (this : NotePostSearchService) : bool :=
  0 <? numSearchesInProgress this.

(** [encodeURIComponent(undefined)] encodes the string ["undefined"]. *)
Definition getCurrentUrlQueryString (this : NotePostSearchService) : string :=
  getSearchUrlQueryString (default "undefined" (_lastQuery this)).

(** [if (cb) { cb(...) }] *)
Definition if_callback {A} (cb : option A) (call : A -> action) : list action :=
  match cb with
  | Some f => [call f]
  | None => []
  end.

Definition executeSearchQuery (searchQuery : string)
    (successCallback : option (SuccessCallback C))
    (errorCallback : option (ErrorCallback C))
    (this : NotePostSearchService) : NotePostSearchService * list action :=
  let queryUrl := getQueryUrl (getSearchUrlQueryString searchQuery) in
  let this := set_isCurrentlyFetchingResults this true in
  let this := set_numSearchesInProgress this (numSearchesInProgress this + 1) in
  (this,
   [FetchNoteSearchResultAsync queryUrl
      (ExecuteSearchQuery_then searchQuery errorCallback)]
   ++ if_callback successCallback CallSuccess).

(** The fulfilment handler of [executeSearchQuery], up to and including the
    [emit]; the subscribers run on the state returned here. *)
Definition executeSearchQuery_fulfilled (searchQuery : string)
    (response : SearchResponseData)
    (this : NotePostSearchService) : NotePostSearchService * list action :=
  let this := set_lastQuery this searchQuery in
  let this := set_searchOffset this (searchOffset response) in
  let this := set_numSearchesInProgress this (numSearchesInProgress this - 1) in
  (this, [EmitInitialSearchResultsLoaded response]).

(** The rest of the fulfilment handler, after the [emit]. *)
Definition executeSearchQuery_fulfilled_end (this : NotePostSearchService)
  : NotePostSearchService :=
  set_isCurrentlyFetchingResults this false.

(** The rejection handler of [executeSearchQuery]. *)
Definition executeSearchQuery_rejected (errorCallback : option (ErrorCallback C))
    (error : ErrorResponse)
    (this : NotePostSearchService) : NotePostSearchService * list action :=
  let this := set_numSearchesInProgress this (numSearchesInProgress this - 1) in
  (this, if_callback errorCallback (fun cb => CallError cb (error_error error))).

Definition loadMoreData (successCallback : option (DataCallback C))
    (failureCallback : option (FailureCallback C))
    (this : NotePostSearchService) : NotePostSearchService * list action :=
  if _isCurrentlyFetchingResults this || hasReachedLastPage this then
    (this,
     if_callback failureCallback (fun cb => CallFailure cb (hasReachedLastPage this)))
  else
    let queryUrl := getQueryUrl (getCurrentUrlQueryString this) in
    let queryUrl :=
      match _searchOffset this with
      | Some (Number n) =>
          if truthy (Number n) then queryUrl +:+ "&offset=" +:+ pretty n
          else queryUrl
      | _ => queryUrl
      end in
    let this := set_isCurrentlyFetchingResults this true in
    (this, [FetchNoteSearchResultAsync queryUrl (LoadMoreData_then successCallback)]).

(** The fulfilment handler of [loadMoreData]. *)
Definition loadMoreData_fulfilled (successCallback : option (DataCallback C))
    (data : SearchResponseData)
    (this : NotePostSearchService) : NotePostSearchService * list action :=
  let this := set_searchOffset this (searchOffset data) in
  let this := set_isCurrentlyFetchingResults this false in
  (this, if_callback successCallback (fun cb => CallData cb data)).

(** [loadMoreData] chains no rejection handler: a rejected fetch runs no
    code of the service. *)
Definition loadMoreData_rejected (error : ErrorResponse)
    (this : NotePostSearchService) : NotePostSearchService * list action :=
  (this, []).

(** *** The service and its outstanding fetches

    A fetch stays in [pending], with the URL it was issued for, from the
    call of [fetchNoteSearchResultAsync] until its promise settles; [trace]
    records every action so far. *)
Record system := {
  service : NotePostSearchService;
  pending : list (string * continuation);
  trace : list action;
}.

Definition new_system : system :=
  {| service := new_service; pending := []; trace := [] |}.

Definition is_fetch (a : action) : bool :=
  match a with
  | FetchNoteSearchResultAsync _ _ => true
  | _ => false
  end.

(** The fetches a list of actions issues. *)
Definition issued (acts : list action) : list (string * continuation) :=
  omap (fun a => match a with
                 | FetchNoteSearchResultAsync queryUrl k => Some (queryUrl, k)
                 | _ => None
                 end) acts.

Inductive settlement :=
| Fulfil (response : SearchResponseData)
| Reject (error : ErrorResponse).

Inductive event :=
| CallExecuteSearchQuery (searchQuery : string)
    (successCallback : option (SuccessCallback C))
    (errorCallback : option (ErrorCallback C))
| CallLoadMoreData (successCallback : option (DataCallback C))
    (failureCallback : option (FailureCallback C))
| Settle (i : nat) (how : settlement).

(** The handler a settlement runs. *)
Definition settle (k : continuation) (how : settlement)
    (this : NotePostSearchService) : NotePostSearchService * list action :=
  match k, how with
  | ExecuteSearchQuery_then q _, Fulfil response =>
      let '(this, acts) := executeSearchQuery_fulfilled q response this in
      (executeSearchQuery_fulfilled_end this, acts)
  | ExecuteSearchQuery_then _ errorCallback, Reject error =>
      executeSearchQuery_rejected errorCallback error this
  | LoadMoreData_then successCallback, Fulfil data =>
      loadMoreData_fulfilled successCallback data this
  | LoadMoreData_then _, Reject error =>
      loadMoreData_rejected error this
  end.

(** The actions an event produces from a given state. *)
Definition react (e : event) (sys : system) : NotePostSearchService * list action :=
  match e with
  | CallExecuteSearchQuery q scb ecb => executeSearchQuery q scb ecb (service sys)
  | CallLoadMoreData scb fcb => loadMoreData scb fcb (service sys)
  | Settle i how =>
      match pending sys !! i with
      | Some (_, k) => settle k how (service sys)
      | None => (service sys, [])
      end
  end.

Definition step (sys : system) (e : event) : system :=
  let '(this, acts) := react e sys in
  let remaining :=
    match e with
    | Settle i _ => delete i (pending sys)
    | _ => pending sys
    end in
  {| service := this;
     pending := remaining ++ issued acts;
     trace := trace sys ++ acts |}.

Definition run (es : list event) (sys : system) : system :=
  fold_left step es sys.

(** *** Vocabulary for statements about runs *)

Definition is_execute (e : event) : bool :=
  match e with
  | CallExecuteSearchQuery _ _ _ => true
  | _ => false
  end.

Definition is_fulfilment (e : event) : bool :=
  match e with
  | Settle _ (Fulfil _) => true
  | _ => false
  end.

(** The success callbacks a list of actions invokes, in order. *)
Definition success_calls (acts : list action) : list (SuccessCallback C) :=
  omap (fun a => match a with CallSuccess cb => Some cb | _ => None end) acts.

(** The success callbacks handed to [executeSearchQuery] by a list of
    events, in order. *)
Definition success_callbacks_passed (es : list event) : list (SuccessCallback C) :=
  omap (fun e => match e with
                 | CallExecuteSearchQuery _ (Some cb) _ => Some cb
                 | _ => None
                 end) es.

(** At most one fetch is outstanding, and none when the flag is down. *)
Definition single_flight (sys : system) : Prop :=
  (_isCurrentlyFetchingResults (service sys) = false -> pending sys = []) /\
  (length (pending sys) <= 1)%nat.

(** The outstanding fetches that [executeSearchQuery] issued. *)
Definition is_search_fetch (p : string * continuation) : bool :=
  match p.2 with
  | ExecuteSearchQuery_then _ _ => true
  | LoadMoreData_then _ => false
  end.

Definition outstanding_searches (fetches : list (string * continuation)) : Z :=
  Z.of_nat (length (List.filter is_search_fetch fetches)).

End Service.

Section UrlQuery.

(** [decodeURIComponent] of the host environment; [None] stands for the
    [URIError] it throws on a malformed escape sequence. *)
Variable decodeURIComponent : string -> option string.

(** The [searchQuery] field of the [UrlSearchQuery] the method returns, or
    [None] when a call of [decodeURIComponent] throws.  The loop decodes
    every further segment and drops the result. *)
Definition updateSearchFieldsBasedOnUrlQuery (urlComponent : string)
  : option string :=
  let urlQuery := JsString.substring_from (String.length "?q=") urlComponent in
  let querySegments := JsString.split "&"%char urlQuery in
  match querySegments with
  | [] => decodeURIComponent "undefined"
  | segment0 :: segments =>
      match decodeURIComponent segment0 with
      | None => None
      | Some searchQuery =>
          match mapM decodeURIComponent segments with
          | None => None
          | Some _ => Some searchQuery
          end
      end
  end.

End UrlQuery.

Arguments FetchNoteSearchResultAsync {C} _ _.
Arguments CallSuccess {C} _.
Arguments CallError {C} _ _.
Arguments CallData {C} _ _.
Arguments CallFailure {C} _ _.
Arguments EmitInitialSearchResultsLoaded {C} _.
Arguments ExecuteSearchQuery_then {C} _ _.
Arguments LoadMoreData_then {C} _.
Arguments CallExecuteSearchQuery {C} _ _ _.
Arguments CallLoadMoreData {C} _ _.
Arguments Settle {C} _ _.
Arguments service {C} _.
Arguments pending {C} _.
Arguments trace {C} _.
Arguments is_fetch {C} _.
Arguments issued {C} _.
Arguments if_callback {C A} _ _.
Arguments settle {C} _ _ _.
Arguments is_execute {C} _.
Arguments is_fulfilment {C} _.
Arguments success_calls {C} _.
Arguments success_callbacks_passed {C} _.
Arguments single_flight {C} _.
Arguments is_search_fetch {C} _.
Arguments outstanding_searches {C} _.

End NoteSearch.

(** ** pages/note-home-page/note-home-page.component.ts *)

Module NoteHomePage.

Export NoteSearch.

(** A numeric field that may still be unassigned, or hold [NaN]. *)
Inductive jsnumber :=
| Undefined
| NaN
| Num (z : Z).

(** [Math.min(a, b)] with [a] a number: [NaN] unless [b] is a number too
    ([undefined] converts to [NaN]). *)
Definition Math_min (a : Z) (b : jsnumber) : jsnumber :=
  match b with
  | Num z => Num (Z.min a z)
  | _ => NaN
  end.

(** [arr.slice(start, end)]: negative indices count from the end, an
    [undefined] end means the length, a [NaN] end converts to [0]. *)
Definition slice {A} (arr : list A) (start : Z) (end_ : jsnumber) : list A :=
  let len := Z.of_nat (length arr) in
  let k := if start <? 0 then Z.max (len + start) 0 else Z.min start len in
  let relativeEnd :=
    match end_ with
    | Undefined => len
    | NaN => 0
    | Num e => e
    end in
  let final :=
    if relativeEnd <? 0 then Z.max (len + relativeEnd) 0
    else Z.min relativeEnd len in
  take (Z.to_nat (Z.max (final - k) 0)) (drop (Z.to_nat k) arr).

Record NoteHomePageComponent := {
  lastPostOnPageNum : jsnumber;
  totalNotes : jsnumber;
  (** [None] while unassigned. *)
  noResultsFound : option bool;
  searchQuery : string;
  showNoteCardsLoadingScreen : bool;
  noteSummaries : list NoteSummary;
  noteSummariesToShow : list NoteSummary;
  page : Z;
  searchPageIsActive : bool;
  firstPostOnPageNum : Z;
  (** The component's own [searchOffset] field. *)
  component_searchOffset : number_or_null;
}.

(** The field initialisers of the class; [searchPageIsActive] is what
    [ngOnInit] finds in the URL. *)
Definition new_component (searchPageIsActive : bool) : NoteHomePageComponent :=
  {| lastPostOnPageNum := Undefined; totalNotes := Undefined;
     noResultsFound := None; searchQuery := "";
     showNoteCardsLoadingScreen := false;
     noteSummaries := []; noteSummariesToShow := [];
     page := 1; searchPageIsActive := searchPageIsActive;
     firstPostOnPageNum := 1; component_searchOffset := Number 0 |}.

Definition set_lastPostOnPageNum (c : NoteHomePageComponent) v :=
  {| lastPostOnPageNum := v; totalNotes := totalNotes c;
     noResultsFound := noResultsFound c; searchQuery := searchQuery c;
     showNoteCardsLoadingScreen := showNoteCardsLoadingScreen c;
     noteSummaries := noteSummaries c; noteSummariesToShow := noteSummariesToShow c;
     page := page c; searchPageIsActive := searchPageIsActive c;
     firstPostOnPageNum := firstPostOnPageNum c;
     component_searchOffset := component_searchOffset c |}.

Definition set_totalNotes (c : NoteHomePageComponent) v :=
  {| lastPostOnPageNum := lastPostOnPageNum c; totalNotes := v;
     noResultsFound := noResultsFound c; searchQuery := searchQuery c;
     showNoteCardsLoadingScreen := showNoteCardsLoadingScreen c;
     noteSummaries := noteSummaries c; noteSummariesToShow := noteSummariesToShow c;
     page := page c; searchPageIsActive := searchPageIsActive c;
     firstPostOnPageNum := firstPostOnPageNum c;
     component_searchOffset := component_searchOffset c |}.

Definition set_noResultsFound (c : NoteHomePageComponent) v :=
  {| lastPostOnPageNum := lastPostOnPageNum c; totalNotes := totalNotes c;
     noResultsFound := Some v; searchQuery := searchQuery c;
     showNoteCardsLoadingScreen := showNoteCardsLoadingScreen c;
     noteSummaries := noteSummaries c; noteSummariesToShow := noteSummariesToShow c;
     page := page c; searchPageIsActive := searchPageIsActive c;
     firstPostOnPageNum := firstPostOnPageNum c;
     component_searchOffset := component_searchOffset c |}.

Definition set_searchQuery (c : NoteHomePageComponent) v :=
  {| lastPostOnPageNum := lastPostOnPageNum c; totalNotes := totalNotes c;
     noResultsFound := noResultsFound c; searchQuery := v;
     showNoteCardsLoadingScreen := showNoteCardsLoadingScreen c;
     noteSummaries := noteSummaries c; noteSummariesToShow := noteSummariesToShow c;
     page := page c; searchPageIsActive := searchPageIsActive c;
     firstPostOnPageNum := firstPostOnPageNum c;
     component_searchOffset := component_searchOffset c |}.

Definition set_showNoteCardsLoadingScreen (c : NoteHomePageComponent) v :=
  {| lastPostOnPageNum := lastPostOnPageNum c; totalNotes := totalNotes c;
     noResultsFound := noResultsFound c; searchQuery := searchQuery c;
     showNoteCardsLoadingScreen := v;
     noteSummaries := noteSummaries c; noteSummariesToShow := noteSummariesToShow c;
     page := page c; searchPageIsActive := searchPageIsActive c;
     firstPostOnPageNum := firstPostOnPageNum c;
     component_searchOffset := component_searchOffset c |}.

Definition set_noteSummaries (c : NoteHomePageComponent) v :=
  {| lastPostOnPageNum := lastPostOnPageNum c; totalNotes := totalNotes c;
     noResultsFound := noResultsFound c; searchQuery := searchQuery c;
     showNoteCardsLoadingScreen := showNoteCardsLoadingScreen c;
     noteSummaries := v; noteSummariesToShow := noteSummariesToShow c;
     page := page c; searchPageIsActive := searchPageIsActive c;
     firstPostOnPageNum := firstPostOnPageNum c;
     component_searchOffset := component_searchOffset c |}.

Definition set_noteSummariesToShow (c : NoteHomePageComponent) v :=
  {| lastPostOnPageNum := lastPostOnPageNum c; totalNotes := totalNotes c;
     noResultsFound := noResultsFound c; searchQuery := searchQuery c;
     showNoteCardsLoadingScreen := showNoteCardsLoadingScreen c;
     noteSummaries := noteSummaries c; noteSummariesToShow := v;
     page := page c; searchPageIsActive := searchPageIsActive c;
     firstPostOnPageNum := firstPostOnPageNum c;
     component_searchOffset := component_searchOffset c |}.

Definition set_page (c : NoteHomePageComponent) v :=
  {| lastPostOnPageNum := lastPostOnPageNum c; totalNotes := totalNotes c;
     noResultsFound := noResultsFound c; searchQuery := searchQuery c;
     showNoteCardsLoadingScreen := showNoteCardsLoadingScreen c;
     noteSummaries := noteSummaries c; noteSummariesToShow := noteSummariesToShow c;
     page := v; searchPageIsActive := searchPageIsActive c;
     firstPostOnPageNum := firstPostOnPageNum c;
     component_searchOffset := component_searchOffset c |}.

Definition set_firstPostOnPageNum (c : NoteHomePageComponent) v :=
  {| lastPostOnPageNum := lastPostOnPageNum c; totalNotes := totalNotes c;
     noResultsFound := noResultsFound c; searchQuery := searchQuery c;
     showNoteCardsLoadingScreen := showNoteCardsLoadingScreen c;
     noteSummaries := noteSummaries c; noteSummariesToShow := noteSummariesToShow c;
     page := page c; searchPageIsActive := searchPageIsActive c;
     firstPostOnPageNum := v;
     component_searchOffset := component_searchOffset c |}.

Definition set_component_searchOffset (c : NoteHomePageComponent) v :=
  {| lastPostOnPageNum := lastPostOnPageNum c; totalNotes := totalNotes c;
     noResultsFound := noResultsFound c; searchQuery := searchQuery c;
     showNoteCardsLoadingScreen := showNoteCardsLoadingScreen c;
     noteSummaries := noteSummaries c; noteSummariesToShow := noteSummariesToShow c;
     page := page c; searchPageIsActive := searchPageIsActive c;
     firstPostOnPageNum := firstPostOnPageNum c;
     component_searchOffset := v |}.

(** *** Methods that touch the component only *)

Definition selectNoteSummariesToShow (c : NoteHomePageComponent) : NoteHomePageComponent :=
  set_noteSummariesToShow c
    (slice (noteSummaries c) (firstPostOnPageNum c - 1) (lastPostOnPageNum c)).

Definition calculateFirstPostOnPageNum (pageNum pageSize : Z)
    (c : NoteHomePageComponent) : NoteHomePageComponent :=
  set_firstPostOnPageNum c ((pageNum - 1) * pageSize + 1).

Definition calculateLastPostOnPageNum (pageNum pageSize : Z)
    (c : NoteHomePageComponent) : NoteHomePageComponent :=
  set_lastPostOnPageNum c (Math_min (pageNum * pageSize) (totalNotes c)).

(** *** The page: component, injected search service, outstanding fetches

    The closures the component passes to the search service. *)
Inductive success_closure := OnSearchQueryChangeExec_success.
Inductive error_closure := OnSearchQueryChangeExec_error.
Inductive data_closure := LoadPage_data.
Inductive failure_closure := LoadPage_failure.

Definition closures : callback_types :=
  {| SuccessCallback := success_closure; ErrorCallback := error_closure;
     DataCallback := data_closure; FailureCallback := failure_closure |}.

(** What is chained on a [fetchNoteHomePageDataAsync] promise. *)
Inductive home_continuation :=
| LoadInitialNoteHomePageData_then
| LoadMoreNoteSummaries_then.

(** An outstanding fetch: what was requested and what is chained on it. *)
Inductive pending_fetch :=
| SearchFetch (queryUrl : string) (k : continuation closures)
| HomePageFetch (offset : string) (k : home_continuation).

(** Calls into the collaborators of the component, in program order. *)
Inductive effect :=
| HttpGetSearch (queryUrl : string)       (* fetchNoteSearchResultAsync *)
| HttpGetHomePage (offset : string)       (* fetchNoteHomePageDataAsync *)
| AddWarning (msg : string)               (* alertsService.addWarning *)
| ShowLoadingScreen (msg : string)        (* loaderService *)
| HideLoadingScreen
| UpdateLocation (searchUrlQueryString : string). (* pushState or location.href *)

Definition is_http (e : effect) : bool :=
  match e with
  | HttpGetSearch _ | HttpGetHomePage _ => true
  | _ => false
  end.

(** [search] is the injected [noteSearchService]; [outstanding] holds the
    fetches whose promise has not settled, oldest first; [effects] is the
    log of the calls into the collaborators. *)
Record World := {
  search : NotePostSearchService;
  component : NoteHomePageComponent;
  outstanding : list pending_fetch;
  effects : list effect;
}.

Definition with_search (w : World) (s : NotePostSearchService) : World :=
  {| search := s; component := component w;
     outstanding := outstanding w; effects := effects w |}.

Definition with_component (w : World) (c : NoteHomePageComponent) : World :=
  {| search := search w; component := c;
     outstanding := outstanding w; effects := effects w |}.

Definition perform (e : effect) (w : World) : World :=
  {| search := search w; component := component w;
     outstanding := outstanding w; effects := effects w ++ [e] |}.

Definition fetch (p : pending_fetch) (e : effect) (w : World) : World :=
  {| search := search w; component := component w;
     outstanding := outstanding w ++ [p]; effects := effects w ++ [e] |}.

Section Page.

(** Constants of note-home-page.constants.ts and app.constants.ts, which are
    not part of the sources. *)
Variable MAX_NUM_CARDS_TO_DISPLAY_ON_NOTE_HOMEPAGE : Z.
Variable MAX_NUM_CARDS_TO_DISPLAY_ON_NOTE_HOMEPAGE_SEARCH : Z.
Variable FATAL_ERROR_CODES : list Z.

Variable encodeURIComponent : string -> string.

(** [None] stands for the [URIError] thrown on a malformed escape sequence. *)
Variable decodeURIComponent : string -> option string.

Definition loadSearchResultsPageData (data : SearchResponseData) (w : World) : World :=
  let c := component w in
  let c := set_noteSummaries c (noteSummaries c ++ noteSummariesList data) in
  let c := set_component_searchOffset c (searchOffset data) in
  let c :=
    if truthy (component_searchOffset c) then
      set_totalNotes c (Num (Z.of_nat (length (noteSummaries c)) + 1))
    else
      set_totalNotes c (Num (Z.of_nat (length (noteSummaries c)))) in
  let c := calculateLastPostOnPageNum (page c)
             MAX_NUM_CARDS_TO_DISPLAY_ON_NOTE_HOMEPAGE_SEARCH c in
  let c := selectNoteSummariesToShow c in
  let c := set_showNoteCardsLoadingScreen c false in
  perform HideLoadingScreen (with_component w c).

(** The subscriber of [onInitialSearchResultsLoaded] that [ngOnInit]
    registers. *)
Definition onInitialSearchResultsLoaded (response : SearchResponseData)
    (w : World) : World :=
  let c := component w in
  let c := set_noteSummaries c [] in
  let c := set_page c 1 in
  let c := set_firstPostOnPageNum c 1 in
  let w := with_component w c in
  let w :=
    if 0 <? Z.of_nat (length (noteSummariesList response)) then
      let w := with_component w (set_noResultsFound (component w) false) in
      loadSearchResultsPageData response w
    else
      with_component w (set_noResultsFound (component w) true) in
  perform HideLoadingScreen w.

(** The component's side of an action of the search service. *)
Definition run_action (a : action closures) (w : World) : World :=
  match a with
  | FetchNoteSearchResultAsync queryUrl k =>
      fetch (SearchFetch queryUrl k) (HttpGetSearch queryUrl) w
  | CallSuccess OnSearchQueryChangeExec_success =>
      perform (UpdateLocation
                 (getSearchUrlQueryString encodeURIComponent
                    (searchQuery (component w)))) w
  | CallError OnSearchQueryChangeExec_error errorResponse =>
      perform (AddWarning
                 ("Unable to fetch search results.Error: " +:+ errorResponse)) w
  | CallData LoadPage_data data =>
      loadSearchResultsPageData data w
  | CallFailure LoadPage_failure _isCurrentlyFetchingResults =>
      perform (AddWarning
                 "No more search resutls found. End of search results.") w
  | EmitInitialSearchResultsLoaded response =>
      onInitialSearchResultsLoaded response w
  end.

Definition run_actions (acts : list (action closures)) (w : World) : World :=
  fold_left (fun w a => run_action a w) acts w.

(** A call of a method of the search service from the component. *)
Definition call_search
    (method : NotePostSearchService ->
              NotePostSearchService * list (action closures))
    (w : World) : World :=
  let '(s, acts) := method (search w) in
  run_actions acts (with_search w s).

Definition failed_to_get_warning (errorResponse : ErrorResponse) (w : World) : World :=
  if bool_decide (status errorResponse ∈ FATAL_ERROR_CODES) then
    perform (AddWarning
               ("Failed to get note home page data.Error: " +:+
                error_error errorResponse)) w
  else w.

Definition loadInitialNoteHomePageData (w : World) : World :=
  fetch (HomePageFetch "0" LoadInitialNoteHomePageData_then) (HttpGetHomePage "0") w.

Definition loadInitialNoteHomePageData_fulfilled (data : NoteHomePageData)
    (w : World) : World :=
  let c := component w in
  let c :=
    if negb (numOfPublishedNotes data =? 0) then
      let c := set_totalNotes c (Num (numOfPublishedNotes data)) in
      let c := set_noResultsFound c false in
      let c := set_noteSummaries c (noteSummaryDicts data) in
      let c := set_noteSummariesToShow c (noteSummaries c) in
      calculateLastPostOnPageNum (page c)
        MAX_NUM_CARDS_TO_DISPLAY_ON_NOTE_HOMEPAGE c
    else
      set_noResultsFound c true in
  perform HideLoadingScreen (with_component w c).

Definition loadMoreNoteSummaries (offset : Z) (w : World) : World :=
  fetch (HomePageFetch (pretty offset) LoadMoreNoteSummaries_then)
    (HttpGetHomePage (pretty offset)) w.

Definition loadMoreNoteSummaries_fulfilled (data : NoteHomePageData)
    (w : World) : World :=
  let c := component w in
  let c := set_noteSummaries c (noteSummaries c ++ noteSummaryDicts data) in
  let c := selectNoteSummariesToShow c in
  let c := calculateLastPostOnPageNum (page c)
             MAX_NUM_CARDS_TO_DISPLAY_ON_NOTE_HOMEPAGE c in
  let c := set_showNoteCardsLoadingScreen c false in
  with_component w c.

Definition loadPage (w : World) : World :=
  if Z.of_nat (length (noteSummaries (component w))) <? firstPostOnPageNum (component w)
  then
    let w := with_component w (set_showNoteCardsLoadingScreen (component w) true) in
    if negb (searchPageIsActive (component w)) then
      loadMoreNoteSummaries (firstPostOnPageNum (component w) - 1) w
    else
      call_search
        (loadMoreData closures encodeURIComponent
           (Some LoadPage_data) (Some LoadPage_failure)) w
  else
    with_component w (selectNoteSummariesToShow (component w)).

(** [onPageChange(page = this.page)] *)
Definition onPageChange (page_arg : option Z) (w : World) : World :=
  let page := default (page (component w)) page_arg in
  let pageSize :=
    if negb (searchPageIsActive (component w)) then
      MAX_NUM_CARDS_TO_DISPLAY_ON_NOTE_HOMEPAGE
    else
      MAX_NUM_CARDS_TO_DISPLAY_ON_NOTE_HOMEPAGE_SEARCH in
  let c := calculateFirstPostOnPageNum page pageSize (component w) in
  let c := calculateLastPostOnPageNum page pageSize c in
  loadPage (with_component w c).

Definition onSearchQueryChangeExec (w : World) : World :=
  let w := perform (ShowLoadingScreen "Loading") w in
  call_search
    (executeSearchQuery closures encodeURIComponent
       (searchQuery (component w))
       (Some OnSearchQueryChangeExec_success)
       (Some OnSearchQueryChangeExec_error)) w.

(** [updateSearchFieldsBasedOnUrlQuery]; [newSearchQuery] is the query the
    search service decodes from [location.search]. *)
Definition updateSearchFieldsBasedOnUrlQuery (newSearchQuery : string)
    (w : World) : World :=
  if negb (String.eqb (searchQuery (component w)) newSearchQuery) then
    onSearchQueryChangeExec
      (with_component w (set_searchQuery (component w) newSearchQuery))
  else w.

(** The body of [ngOnInit] on a fresh component and the given search
    service, once the URL has been read.  [urlQuery] is [None] when
    [getUrlParams()] has no own property [q]; it is [Some newSearchQuery]
    when it has one and the search service returned [newSearchQuery] for
    [location.search]. *)
Definition ngOnInit_with_query (s : NotePostSearchService)
    (urlQuery : option string) : World :=
  let w := {| search := s; component := new_component false;
              outstanding := []; effects := [] |} in
  let w := perform (ShowLoadingScreen "Loading") w in
  match urlQuery with
  | Some q =>
      let w := with_component w (new_component true) in
      updateSearchFieldsBasedOnUrlQuery q w
  | None => loadInitialNoteHomePageData w
  end.

(** [ngOnInit].  [urlHasQ] is [urlService.getUrlParams().hasOwnProperty('q')]
    and [locationSearch] is [windowRef.nativeWindow.location.search]; the
    service that gives the URL parameters is not part of the sources, so
    both are read from the environment.  The branch is chosen by [urlHasQ],
    but the query searched is what the search service reads in
    [locationSearch]: the characters after the third, up to the first
    ampersand.  [None] stands for the [URIError] of [decodeURIComponent],
    which leaves [ngOnInit] before it has subscribed to anything. *)
Definition ngOnInit (s : NotePostSearchService) (urlHasQ : bool)
    (locationSearch : string) : option World :=
  if urlHasQ then
    match
      NoteSearch.updateSearchFieldsBasedOnUrlQuery decodeURIComponent
        locationSearch
    with
    | Some newSearchQuery => Some (ngOnInit_with_query s (Some newSearchQuery))
    | None => None
    end
  else Some (ngOnInit_with_query s None).

(** How a fetch ends. *)
Inductive outcome :=
| SearchFulfilled (response : SearchResponseData)
| HomePageFulfilled (data : NoteHomePageData)
| Rejected (errorResponse : ErrorResponse).

(** The handlers chained on a fetch, run when it settles.  A fetch cannot
    end with the other endpoint's payload: such a pair changes nothing. *)
Definition settled (p : pending_fetch) (how : outcome) (w : World) : option World :=
  match p, how with
  | SearchFetch _ (ExecuteSearchQuery_then q _), SearchFulfilled response =>
      let w :=
        call_search
          (executeSearchQuery_fulfilled closures q response) w in
      Some (with_search w (executeSearchQuery_fulfilled_end (search w)))
  | SearchFetch _ (ExecuteSearchQuery_then _ errorCallback), Rejected error =>
      Some (call_search (executeSearchQuery_rejected closures errorCallback error) w)
  | SearchFetch _ (LoadMoreData_then successCallback), SearchFulfilled data =>
      Some (call_search (loadMoreData_fulfilled closures successCallback data) w)
  | SearchFetch _ (LoadMoreData_then _), Rejected error =>
      Some (call_search (loadMoreData_rejected closures error) w)
  | HomePageFetch _ LoadInitialNoteHomePageData_then, HomePageFulfilled data =>
      Some (loadInitialNoteHomePageData_fulfilled data w)
  | HomePageFetch _ LoadMoreNoteSummaries_then, HomePageFulfilled data =>
      Some (loadMoreNoteSummaries_fulfilled data w)
  | HomePageFetch _ _, Rejected errorResponse =>
      Some (failed_to_get_warning errorResponse w)
  | _, _ => None
  end.

Inductive page_event :=
| SearchQueryChanged (model : string)   (* subscriber of searchQueryChanged *)
| SetPage (p : Z)                       (* the pagination control writes page *)
| OnPageChange (page_arg : option Z)
| Settled (i : nat) (how : outcome).

Definition without_fetch (i : nat) (w : World) : World :=
  {| search := search w; component := component w;
     outstanding := delete i (outstanding w); effects := effects w |}.

Definition page_step (w : World) (e : page_event) : World :=
  match e with
  | SearchQueryChanged model =>
      onSearchQueryChangeExec
        (with_component w (set_searchQuery (component w) model))
  | SetPage p => with_component w (set_page (component w) p)
  | OnPageChange page_arg => onPageChange page_arg w
  | Settled i how =>
      match outstanding w !! i with
      | Some p => default w (settled p how (without_fetch i w))
      | None => w
      end
  end.

Definition page_run (es : list page_event) (w : World) : World :=
  fold_left page_step es w.

(** The HTTP requests among the effects. *)
Definition http_requests (w : World) : list effect :=
  filter (fun e => is_http e = true) (effects w).

(** The events whose handler assigns a new array to [noteSummaries] that
    does not start with the old one: the fulfilment of the fetch of an
    [executeSearchQuery] and that of the first fetch of the home page. *)
Definition replaces_buffer (w : World) (e : page_event) : bool :=
  match e with
  | Settled i (SearchFulfilled _) =>
      match outstanding w !! i with
      | Some (SearchFetch _ (ExecuteSearchQuery_then _ _)) => true
      | _ => false
      end
  | Settled i (HomePageFulfilled _) =>
      match outstanding w !! i with
      | Some (HomePageFetch _ LoadInitialNoteHomePageData_then) => true
      | _ => false
      end
  | _ => false
  end.

End Page.

End NoteHomePage.

(** ** pages/notes-page/services/notes-page.service.ts *)

Module NotesPageService.

Record NotesPageService := {
  _notesPostId : string;
  _activeTab : string;
  _notesPostAction : string;
  _imageUploaderIsNarrow : bool
}.

(** The field initialisers of the class. *)
Definition initial : NotesPageService :=
  {| _notesPostId := "";
     _activeTab := "main";
     _notesPostAction := "";
     _imageUploaderIsNarrow := false |}.

Definition set_activeTab (this : NotesPageService) (tab : string) :=
  {| _notesPostId := _notesPostId this;
     _activeTab := tab;
     _notesPostAction := _notesPostAction this;
     _imageUploaderIsNarrow := _imageUploaderIsNarrow this |}.

Definition set_notesPostId (this : NotesPageService) (id : string) :=
  {| _notesPostId := id;
     _activeTab := _activeTab this;
     _notesPostAction := _notesPostAction this;
     _imageUploaderIsNarrow := _imageUploaderIsNarrow this |}.

(** What the service does to its collaborators. *)
Inductive effect :=
| RemoveListener      (* preventPageUnloadEventService.removeListener() *)
| UpdateViewEmitted.  (* updateViewEventEmitter.emit() *)

#[global] Instance effect_eq_dec : EqDecision effect.
Proof. solve_decision. Defined.

(** The window location as the service reads it: [location.hash], and the
    id that [urlService.getNoteIdFromUrl()] returns at that location. *)
Record location := {
  hash : string;
  noteIdFromUrl : string
}.

Definition _setActiveTab (loc : location) (this : NotesPageService)
  : NotesPageService * list effect :=
  if JsString.startsWith (hash loc) "#/notes_post_editor" then
    (set_notesPostId (set_activeTab this "editor_tab") (noteIdFromUrl loc),
     [UpdateViewEmitted])
  else
    (set_activeTab this "main", [RemoveListener; UpdateViewEmitted]).

(** The constructor reads the current hash; [detectUrlChange] installs
    the same reaction for every later change of the hash. *)
Definition constructor (loc : location) : NotesPageService * list effect :=
  _setActiveTab loc initial.

Definition onhashchange (st : NotesPageService * list effect) (loc : location)
  : NotesPageService * list effect :=
  let '(this', done) := _setActiveTab loc st.1 in
  (this', st.2 ++ done).

(** The service over a visit: created at [first], then the hash changes
    to each of [later] in turn. *)
Definition browse (first : location) (later : list location)
  : NotesPageService * list effect :=
  fold_left onhashchange later (constructor first).

Definition is_editor_hash (loc : location) : bool :=
  JsString.startsWith (hash loc) "#/notes_post_editor".

Definition count_effect (e : effect) (log : list effect) : nat :=
  length (filter (fun e' => e' = e) log).

End NotesPageService.

(** * Properties *)

(** ** The note model *)

Module NoteModelFacts.

Import NoteModel.

Section Validate.

Variable test : string -> bool.

Lemma title_eqb_empty (s : string) :
  String.eqb s "" = true <-> js_length s = 0.
Proof.
  unfold js_length. destruct s as [|a s]; simpl; split; intros H;
    try reflexivity; try discriminate; lia.
Qed.

(** The issues about the title alone, as the chain of tests selects them. *)
Lemma validate_unfold (n : NoteData) :
  validate test n =
    (if String.eqb (_title n) "" then [msg_title_empty]
     else if negb (test (_title n)) then [msg_title_invalid]
     else if js_length (_title n) <? 5 then [msg_title_short]
     else if 65 <? js_length (_title n) then [msg_title_long]
     else [])
    ++ (if String.eqb (_content n) "" then [msg_content_empty] else []).
Proof.
  unfold validate, push, AppConstants.MIN_CHARS_IN_NOTE_TITLE,
    AppConstants.MAX_CHARS_IN_NOTE_TITLE.
  destruct (String.eqb (_title n) ""); [|destruct (negb (test (_title n)));
    [|destruct (js_length (_title n) <? 5);
      [|destruct (65 <? js_length (_title n))]]];
    destruct (String.eqb (_content n) ""); reflexivity.
Qed.

(** C7. A title of 5 to 65 characters that passes the valid-title pattern
    gives, on a note with non-empty content, no issue at all.  Any other
    title gives the message of the first test it fails, in the order of the
    source: empty title, invalid characters, fewer than 5 characters, more
    than 65 characters; so every title outside the range or not matching the
    pattern puts one of the four title messages in the list, and a message
    is in the list only if the note has the defect it names.  The two
    length messages are given to titles that pass the pattern only: a title
    outside the range that also fails the pattern gets the message of the
    pattern and no other. *)
Theorem validate_title_issues (n : NoteData) :
  let len := js_length (_title n) in
  (5 <= len <= 65 -> test (_title n) = true -> _content n <> "" ->
     validate test n = []) /\
  (_title n = "" ->
     In "Note title should not be empty." (validate test n)) /\
  (_title n <> "" -> test (_title n) = false ->
     In "Note title contains invalid characters." (validate test n)) /\
  (test (_title n) = true -> 0 < len < 5 ->
     In "Note title should not be less than 5 characters." (validate test n)) /\
  (test (_title n) = true -> 65 < len ->
     In "Note title should not be more than 65 characters." (validate test n)) /\
  (~ (5 <= len <= 65 /\ test (_title n) = true) ->
     exists issue, In issue (validate test n) /\
       In issue ["Note title should not be empty.";
                 "Note title contains invalid characters.";
                 "Note title should not be less than 5 characters.";
                 "Note title should not be more than 65 characters."]) /\
  (forall issue, In issue (validate test n) ->
     issue = "Note title should not be empty." /\ _title n = "" \/
     issue = "Note title contains invalid characters." /\
       _title n <> "" /\ test (_title n) = false \/
     issue = "Note title should not be less than 5 characters." /\
       test (_title n) = true /\ 0 < len < 5 \/
     issue = "Note title should not be more than 65 characters." /\
       test (_title n) = true /\ 65 < len \/
     issue = "Note content should not be empty." /\ _content n = "").
Proof.
  intros len. subst len. rewrite validate_unfold.
  assert (Hne : _title n <> "" -> String.eqb (_title n) "" = false).
  { intros H. apply String.eqb_neq. exact H. }
  assert (Hnz : 0 < js_length (_title n) -> String.eqb (_title n) "" = false).
  { intros H. destruct (String.eqb (_title n) "") eqn:E; [|reflexivity].
    apply title_eqb_empty in E. lia. }
  repeat split.
  - intros Hlen Ht Hc. rewrite Hnz by lia. rewrite Ht. simpl.
    replace (js_length (_title n) <? 5) with false by (symmetry; apply Z.ltb_ge; lia).
    replace (65 <? js_length (_title n)) with false by (symmetry; apply Z.ltb_ge; lia).
    apply String.eqb_neq in Hc. rewrite Hc. reflexivity.
  - intros ->. simpl. left. reflexivity.
  - intros Hn Ht. rewrite (Hne Hn), Ht. simpl. left. reflexivity.
  - intros Ht Hlen. rewrite Hnz by lia. rewrite Ht. simpl.
    replace (js_length (_title n) <? 5) with true by (symmetry; apply Z.ltb_lt; lia).
    simpl. left. reflexivity.
  - intros Ht Hlen. rewrite Hnz by lia. rewrite Ht. simpl.
    replace (js_length (_title n) <? 5) with false by (symmetry; apply Z.ltb_ge; lia).
    replace (65 <? js_length (_title n)) with true by (symmetry; apply Z.ltb_lt; lia).
    simpl. left. reflexivity.
  - intros Hbad.
    destruct (String.eqb (_title n) "") eqn:E.
    { eexists. split; [left; reflexivity|]. simpl. auto. }
    destruct (test (_title n)) eqn:Ht; simpl.
    2:{ eexists. split; [left; reflexivity|]. simpl. auto. }
    destruct (js_length (_title n) <? 5) eqn:E5.
    { eexists. split; [left; reflexivity|]. simpl. auto. }
    destruct (65 <? js_length (_title n)) eqn:E65.
    { eexists. split; [left; reflexivity|]. simpl. auto. }
    apply Z.ltb_ge in E5, E65. exfalso. apply Hbad. split; [lia | reflexivity].
  - intros issue Hin. apply in_app_or in Hin as [Hin|Hin].
    + destruct (String.eqb_spec (_title n) "") as [Heq|Hne'].
      { destruct Hin as [<-|[]]. left. split; [reflexivity | exact Heq]. }
      assert (0 < js_length (_title n)).
      { unfold js_length. destruct (_title n); [congruence | simpl; lia]. }
      destruct (test (_title n)) eqn:Ht; simpl in Hin.
      2:{ destruct Hin as [<-|[]]. right. left. auto. }
      destruct (js_length (_title n) <? 5) eqn:E5.
      { destruct Hin as [<-|[]]. apply Z.ltb_lt in E5.
        right. right. left. split; [reflexivity|]. split; [reflexivity | lia]. }
      destruct (65 <? js_length (_title n)) eqn:E65; [|destruct Hin].
      destruct Hin as [<-|[]]. apply Z.ltb_lt in E65.
      right. right. right. left. auto.
    + destruct (String.eqb_spec (_content n) "") as [Heq|Hne']; [|destruct Hin].
      destruct Hin as [<-|[]]. right. right. right. right. auto.
Qed.

End Validate.

(** C7, as stated, fails: a title outside the length range does not
    always get its length message.  With a pattern that refuses the
    exclamation mark, the title [a!] has fewer than 5 characters and a
    title of 66 exclamation marks has more than 65, and each gets the
    message of the pattern only. *)
Lemma out_of_range_title_gets_no_length_message :
  let test := fun title => negb (JsString.includes "!" title) in
  let short := sample_note "a!" "<p>Hello</p>" in
  let long :=
    sample_note
      "!!!!!!!!!!!!!!!!!!!!!!!!!!!!!!!!!!!!!!!!!!!!!!!!!!!!!!!!!!!!!!!!!!"
      "<p>Hello</p>" in
  js_length (_title short) = 2 /\
  validate test short = ["Note title contains invalid characters."] /\
  ~ In "Note title should not be less than 5 characters." (validate test short) /\
  js_length (_title long) = 66 /\
  validate test long = ["Note title contains invalid characters."] /\
  ~ In "Note title should not be more than 65 characters." (validate test long).
Proof.
  repeat split; try reflexivity; intros [H|[]]; discriminate H.
Qed.

Lemma validate_title_issues_witness :
  validate (fun _ => true) (sample_note "sampleTitle" "<p>Hello</p>") = [].
Proof.
  apply (proj1 (validate_title_issues (fun _ => true)
                  (sample_note "sampleTitle" "<p>Hello</p>"))).
  - vm_compute. split; discriminate.
  - reflexivity.
  - discriminate.
Defined.

End NoteModelFacts.

(** ** The note update service *)

Module NoteUpdateFacts.

Import NoteModel NoteUpdate.

Lemma changeDict_apply_mutation (st : state) (m : mutation) (field : string) :
  changeDict (apply_mutation st m).2 !! field =
    if String.eqb (mutated_field m) field then Some (mutation_value m)
    else changeDict st.2 !! field.
Proof.
  destruct st as [note this].
  destruct m;
    cbn [apply_mutation setNoteTitle setNoteSubtitle setNoteContent snd
         changeDict mutated_field mutation_value];
    match goal with
    | |- context [String.eqb ?k field] =>
        destruct (String.eqb_spec k field) as [<-|Hne]
    end;
    first [apply lookup_insert_eq | apply lookup_insert_ne; assumption].
Qed.

(** Every key of the dictionary after a run was either there before or is
    the last value some setter wrote. *)
Lemma changeDict_apply_mutations (ms : list mutation) (st : state) (field : string) :
  changeDict (apply_mutations ms st).2 !! field =
    match last_set_value field ms with
    | Some v => Some v
    | None => changeDict st.2 !! field
    end.
Proof.
  revert st. induction ms as [|m ms IH]; intros st; [reflexivity|].
  change (apply_mutations (m :: ms) st)
    with (apply_mutations ms (apply_mutation st m)).
  rewrite IH. simpl. destruct (last_set_value field ms); [reflexivity|].
  rewrite changeDict_apply_mutation.
  destruct (String.eqb (mutated_field m) field); reflexivity.
Qed.

Lemma last_set_value_is_Some (field : string) (ms : list mutation) :
  is_Some (last_set_value field ms) <-> field ∈ mutated_fields ms.
Proof.
  unfold mutated_fields. induction ms as [|m ms IH]; simpl.
  - split; [intros [? ?]; discriminate | set_solver].
  - rewrite elem_of_union, elem_of_singleton, <- IH.
    destruct (last_set_value field ms) as [v|].
    + split; eauto.
    + destruct (String.eqb_spec (mutated_field m) field) as [<-|Hne].
      * split; eauto.
      * split; [intros [? ?]; discriminate|].
        intros [->|[? ?]]; [contradiction | discriminate].
Qed.

Lemma mutated_fields_editable (ms : list mutation) :
  mutated_fields ms ⊆ {[ "title"; "subtitle"; "content" ]}.
Proof.
  unfold mutated_fields. induction ms as [|m ms IH]; simpl.
  - apply empty_subseteq.
  - apply union_subseteq. split; [|exact IH].
    apply singleton_subseteq_l.
    rewrite !elem_of_union, !elem_of_singleton. destruct m; simpl; auto.
Qed.

Lemma note_apply_mutations (ms : list mutation) (st : state) :
  let note := (apply_mutations ms st).1 in
  _title note = default (_title st.1) (last_set_value "title" ms) /\
  _subtitle note = default (_subtitle st.1) (last_set_value "subtitle" ms) /\
  _content note = default (_content st.1) (last_set_value "content" ms) /\
  _id note = _id st.1 /\
  _displayedAuthorName note = _displayedAuthorName st.1 /\
  _urlFragment note = _urlFragment st.1 /\
  _lastUpdated note = _lastUpdated st.1 /\
  _publishedOn note = _publishedOn st.1.
Proof.
  revert st. induction ms as [|m ms IH]; intros st; [simpl; tauto|].
  change (apply_mutations (m :: ms) st)
    with (apply_mutations ms (apply_mutation st m)).
  specialize (IH (apply_mutation st m)). simpl in IH.
  destruct IH as (Ht & Hs & Hc & H1 & H2 & H3 & H4 & H5).
  cbn zeta. rewrite Ht, Hs, Hc, H1, H2, H3, H4, H5. clear.
  destruct st as [note this].
  destruct m; simpl;
    destruct (last_set_value "title" ms),
             (last_set_value "subtitle" ms),
             (last_set_value "content" ms); simpl; tauto.
Qed.

(** C8. Start from a note built from a backend dict and from an empty
    change dict, and call the three setters in any order, any number of
    times.  The change dict then has exactly the fields that were set as
    keys, all among title, subtitle and content, each with the value set
    last; the note has the last value set in each such field, and its other
    fields are those of the backend dict. *)
Theorem change_dict_holds_mutated_fields
    (noteBackendDict : NoteBackendDict) (ms : list mutation) :
  let st := apply_mutations ms (createFromBackendDict noteBackendDict, new_service) in
  let note := st.1 in
  let dict := getNoteChangeDict st.2 in
  dom dict = mutated_fields ms /\
  dom dict ⊆ {[ "title"; "subtitle"; "content" ]} /\
  (forall field, dict !! field = last_set_value field ms) /\
  _title note = default (title noteBackendDict) (dict !! "title") /\
  _subtitle note = default (subtitle noteBackendDict) (dict !! "subtitle") /\
  _content note = default (content noteBackendDict) (dict !! "content") /\
  _id note = id noteBackendDict /\
  _displayedAuthorName note = displayed_author_name noteBackendDict /\
  _urlFragment note = url_fragment noteBackendDict /\
  _lastUpdated note = last_updated noteBackendDict /\
  _publishedOn note = published_on noteBackendDict.
Proof.
  intros st note dict.
  assert (Hlookup : forall field, dict !! field = last_set_value field ms).
  { intros field. subst dict st. unfold getNoteChangeDict.
    rewrite changeDict_apply_mutations. simpl.
    destruct (last_set_value field ms); [reflexivity | apply lookup_empty]. }
  assert (Hdom : dom dict = mutated_fields ms).
  { apply set_eq. intros field.
    rewrite elem_of_dom, Hlookup. apply last_set_value_is_Some. }
  split; [exact Hdom|].
  split; [rewrite Hdom; apply mutated_fields_editable|].
  split; [exact Hlookup|].
  rewrite !Hlookup.
  exact (note_apply_mutations ms (createFromBackendDict noteBackendDict, new_service)).
Qed.

End NoteUpdateFacts.

(** ** The notes page *)

Module NotesPageFacts.

Import NotesPage.

(** [indexOf] finds the first occurrence. *)
Lemma indexOf_found (arr : list NoteSummary) (x : NoteSummary) :
  (x ∈ arr) ->
  exists before after,
    arr = before ++ x :: after /\ (x ∉ before) /\
    indexOf arr x = Z.of_nat (length before).
Proof.
  induction arr as [|y arr IH]; intros Hin.
  - inversion Hin.
  - simpl. destruct (Nat.eqb_spec y x) as [->|Hne].
    + exists [], arr. repeat split. apply not_elem_of_nil.
    + apply elem_of_cons in Hin as [Heq|Hin]; [congruence|].
      destruct (IH Hin) as (before & after & -> & Hnot & Hidx).
      exists (y :: before), after. repeat split.
      * intros [Heq|Hin']%elem_of_cons; [congruence | contradiction].
      * rewrite Hidx.
        destruct (Z.of_nat (length before) <? 0) eqn:E.
        { apply Z.ltb_lt in E. lia. }
        simpl length. lia.
Qed.

Lemma splice1_middle (before after : list NoteSummary) (x : NoteSummary) :
  splice1 (before ++ x :: after) (Z.of_nat (length before)) = before ++ after.
Proof.
  unfold splice1. rewrite Nat2Z.id.
  rewrite take_app_length.
  replace (S (length before)) with (length (before ++ [x]))
    by (rewrite length_app; simpl; lia).
  replace (before ++ x :: after) with ((before ++ [x]) ++ after)
    by (rewrite <- app_assoc; reflexivity).
  rewrite drop_app_length. reflexivity.
Qed.

(** C9. Unpublishing a summary that is in the published list takes its
    first occurrence out of that list and leaves the other elements as they
    were and in their order, puts the same object in front of the draft
    list, whose other elements stay as they were, and moves the two counters
    by one in opposite directions.  When the published list holds the
    object once, the object is no longer in it afterwards. *)
Theorem unpublish_moves_summary (noteData : NoteData) (noteSummary : NoteSummary) :
  (noteSummary ∈ publishedNoteSummaryDicts noteData) ->
  let after_call := unpublishedNotesPost noteData noteSummary in
  (exists before after,
     publishedNoteSummaryDicts noteData = before ++ noteSummary :: after /\
     (noteSummary ∉ before) /\
     publishedNoteSummaryDicts after_call = before ++ after) /\
  draftNoteSummaryDicts after_call =
    noteSummary :: draftNoteSummaryDicts noteData /\
  numOfPublishedNotes after_call = numOfPublishedNotes noteData - 1 /\
  numOfDraftNotes after_call = numOfDraftNotes noteData + 1 /\
  (NoDup (publishedNoteSummaryDicts noteData) ->
     noteSummary ∉ publishedNoteSummaryDicts after_call).
Proof.
  intros Hin after_call.
  destruct (indexOf_found _ _ Hin) as (before & after & Heq & Hnot & Hidx).
  assert (Hpub : publishedNoteSummaryDicts after_call = before ++ after).
  { subst after_call. unfold unpublishedNotesPost. cbn [publishedNoteSummaryDicts].
    rewrite Hidx.
    replace (-1 <? Z.of_nat (length before)) with true
      by (symmetry; apply Z.ltb_lt; lia).
    rewrite Heq. apply splice1_middle. }
  split; [exists before, after; auto|].
  repeat split.
  rewrite Hpub, Heq. intros Hnodup Hin'.
  apply NoDup_app in Hnodup as (_ & Hdisj & Hnd).
  apply NoDup_cons in Hnd as [Hnotafter _].
  apply elem_of_app in Hin' as [Hb|Ha]; [contradiction|contradiction].
Qed.

Lemma unpublish_moves_summary_witness :
  let noteData :=
    {| numOfPublishedNotes := 2; numOfDraftNotes := 1;
       publishedNoteSummaryDicts := [10%nat; 11%nat];
       draftNoteSummaryDicts := [12%nat] |} in
  draftNoteSummaryDicts (unpublishedNotesPost noteData 11%nat) = [11%nat; 12%nat].
Proof.
  intros noteData.
  refine (proj1 (proj2 (unpublish_moves_summary noteData 11%nat _))).
  subst noteData. simpl. apply list_elem_of_In. simpl. auto.
Defined.

End NotesPageFacts.

(** ** The page window of the home page *)

Module PageWindowFacts.

Import NoteHomePage.

(** [slice] with both indices within the usual range: the elements from
    position [start] up to, not including, position [stop], as far as the
    array has them. *)
Lemma slice_lookup {A} (arr : list A) (start stop : Z) (k : nat) :
  0 <= start -> 0 <= stop ->
  slice arr start (Num stop) !! k =
    if decide (start + Z.of_nat k < stop) then arr !! (Z.to_nat start + k)%nat
    else None.
Proof.
  intros Hstart Hstop. unfold slice.
  replace (start <? 0) with false by (symmetry; apply Z.ltb_ge; lia).
  replace (stop <? 0) with false by (symmetry; apply Z.ltb_ge; lia).
  set (len := Z.of_nat (length arr)).
  destruct (decide (start + Z.of_nat k < stop)) as [Hlt|Hge].
  - destruct (decide (Z.of_nat k < Z.min stop len - Z.min start len)) as [Hk|Hk].
    + rewrite lookup_take_lt by lia.
      rewrite lookup_drop. f_equal. lia.
    + rewrite lookup_take_ge by lia.
      symmetry. apply lookup_ge_None. subst len. lia.
  - apply lookup_take_ge. lia.
Qed.

(** C4. For a page number and a page size of at least 1 and a total of at
    least 0, the window starts at [(pageNumber - 1) * pageSize + 1] and ends
    at [min (pageNumber * pageSize) totalCount], counting from 1, and the
    slice shown has the elements of the buffer at the positions from
    [firstIndex - 1] to [lastIndex - 1], counting from 0.  On a buffer of 7
    with a total of 7 and a page size of 5, page 1 shows the elements 0 to 4
    and page 2 the elements 5 and 6, with a last index of 7. *)
Theorem page_window (c : NoteHomePageComponent) (pageNumber pageSize totalCount : Z) :
  1 <= pageNumber -> 1 <= pageSize -> 0 <= totalCount ->
  totalNotes c = Num totalCount ->
  let shown :=
    selectNoteSummariesToShow
      (calculateLastPostOnPageNum pageNumber pageSize
         (calculateFirstPostOnPageNum pageNumber pageSize c)) in
  let firstIndex := (pageNumber - 1) * pageSize + 1 in
  let lastIndex := Z.min (pageNumber * pageSize) totalCount in
  firstPostOnPageNum shown = firstIndex /\
  lastPostOnPageNum shown = Num lastIndex /\
  noteSummaries shown = noteSummaries c /\
  (forall k : nat,
     noteSummariesToShow shown !! k =
       if decide (firstIndex - 1 + Z.of_nat k <= lastIndex - 1)
       then noteSummaries c !! (Z.to_nat (firstIndex - 1) + k)%nat
       else None) /\
  (forall x y : list NoteSummary,
     totalCount = 7 -> pageSize = 5 -> noteSummaries c = x ++ y ->
     length x = 5%nat -> length y = 2%nat ->
     (pageNumber = 1 -> noteSummariesToShow shown = x) /\
     (pageNumber = 2 ->
        noteSummariesToShow shown = y /\ lastPostOnPageNum shown = Num 7)).
Proof.
  intros Hpage Hsize Htotal Htot shown firstIndex lastIndex.
  assert (Hfirst : firstPostOnPageNum shown = firstIndex) by reflexivity.
  assert (Hlast : lastPostOnPageNum shown = Num lastIndex).
  { subst shown. simpl. rewrite Htot. reflexivity. }
  assert (Hshow : noteSummariesToShow shown =
                  slice (noteSummaries c) (firstIndex - 1) (Num lastIndex)).
  { subst shown. simpl. rewrite Htot. reflexivity. }
  split; [exact Hfirst|]. split; [exact Hlast|]. split; [reflexivity|].
  split.
  - intros k. rewrite Hshow, slice_lookup by (subst firstIndex lastIndex; nia).
    destruct (decide (firstIndex - 1 + Z.of_nat k < lastIndex)),
             (decide (firstIndex - 1 + Z.of_nat k <= lastIndex - 1));
      first [reflexivity | lia].
  - intros x y -> -> Hbuf Hx Hy. rewrite Hshow, Hlast, Hbuf.
    subst firstIndex lastIndex.
    do 6 (destruct x as [|? x]; try discriminate Hx).
    do 3 (destruct y as [|? y]; try discriminate Hy).
    split; intros ->; [reflexivity | split; reflexivity].
Qed.

Lemma page_window_witness :
  let c := set_noteSummaries (set_totalNotes (new_component true) (Num 7))
             [0; 1; 2; 3; 4; 5; 6]%nat in
  noteSummariesToShow
    (selectNoteSummariesToShow
       (calculateLastPostOnPageNum 2 5 (calculateFirstPostOnPageNum 2 5 c)))
  = [5; 6]%nat.
Proof.
  intros c.
  destruct (page_window c 2 5 7) as (_ & _ & _ & _ & Hexample);
    [lia | lia | lia | reflexivity |].
  destruct (Hexample [0; 1; 2; 3; 4]%nat [5; 6]%nat) as [_ Hpage2];
    [reflexivity | reflexivity | reflexivity | reflexivity | reflexivity |].
  apply Hpage2. reflexivity.
Defined.

End PageWindowFacts.

(** ** The search service and its outstanding fetches *)

Module NoteSearchFacts.

Import NoteSearch.

Section Service.

Variable C : callback_types.
Variable encodeURIComponent : string -> string.

Abbreviation action := (action C).
Abbreviation event := (event C).
Abbreviation system := (system C).
Abbreviation step := (step C encodeURIComponent).
Abbreviation run := (run C encodeURIComponent).
Abbreviation react := (react C encodeURIComponent).
Abbreviation loadMoreData := (loadMoreData C encodeURIComponent).
Abbreviation executeSearchQuery := (executeSearchQuery C encodeURIComponent).

Lemma issued_if_callback {A} (cb : option A) (call : A -> action) :
  (forall f, is_fetch (call f) = false) -> issued (if_callback cb call) = [].
Proof.
  intros Hcall. destruct cb as [f|]; [|reflexivity]. simpl.
  specialize (Hcall f). destruct (call f); try reflexivity. discriminate.
Qed.

Lemma delete_past_end {A} (l : list A) (i : nat) :
  l !! i = None -> delete i l = l.
Proof.
  intros Hi. apply lookup_ge_None in Hi.
  rewrite delete_take_drop, take_ge, drop_ge, app_nil_r by lia. reflexivity.
Qed.

Lemma run_cons (e : event) (es : list event) (sys : system) :
  run (e :: es) sys = run es (step sys e).
Proof. reflexivity. Qed.

(** The guard of [loadMoreData]. *)
Lemma loadMoreData_guarded (this : NotePostSearchService) scb fcb :
  _isCurrentlyFetchingResults this || hasReachedLastPage this = true ->
  loadMoreData scb fcb this =
    (this, if_callback fcb (fun cb => CallFailure cb (hasReachedLastPage this))).
Proof. intros H. unfold NoteSearch.loadMoreData. rewrite H. reflexivity. Qed.

Lemma loadMoreData_unguarded (this : NotePostSearchService) scb fcb :
  _isCurrentlyFetchingResults this || hasReachedLastPage this = false ->
  exists queryUrl,
    loadMoreData scb fcb this =
      (set_isCurrentlyFetchingResults this true,
       [FetchNoteSearchResultAsync queryUrl (LoadMoreData_then scb)]).
Proof.
  intros H. unfold NoteSearch.loadMoreData. rewrite H. eexists. reflexivity.
Qed.

Lemma step_loadMoreData_guarded (sys : system) scb fcb :
  _isCurrentlyFetchingResults (service sys)
    || hasReachedLastPage (service sys) = true ->
  step sys (CallLoadMoreData scb fcb) =
    {| service := service sys; pending := pending sys;
       trace := trace sys ++
         if_callback fcb
           (fun cb => CallFailure cb (hasReachedLastPage (service sys))) |}.
Proof.
  intros H. unfold NoteSearch.step, NoteSearch.react.
  rewrite (loadMoreData_guarded _ _ _ H).
  rewrite issued_if_callback by reflexivity. rewrite app_nil_r. reflexivity.
Qed.

Lemma step_executeSearchQuery (sys : system) q scb ecb :
  step sys (CallExecuteSearchQuery q scb ecb) =
    {| service :=
         set_numSearchesInProgress
           (set_isCurrentlyFetchingResults (service sys) true)
           (numSearchesInProgress (service sys) + 1);
       pending := pending sys ++
         [(getQueryUrl (getSearchUrlQueryString encodeURIComponent q),
           ExecuteSearchQuery_then q ecb)];
       trace := trace sys ++
         FetchNoteSearchResultAsync
           (getQueryUrl (getSearchUrlQueryString encodeURIComponent q))
           (ExecuteSearchQuery_then q ecb) :: if_callback scb CallSuccess |}.
Proof.
  unfold NoteSearch.step, NoteSearch.react, NoteSearch.executeSearchQuery.
  f_equal. simpl. rewrite issued_if_callback by reflexivity. reflexivity.
Qed.

(** No handler of a settlement issues a fetch. *)
Lemma settle_issues_nothing (k : continuation C) how this :
  issued (settle k how this).2 = [].
Proof.
  destruct k as [q ecb|scb], how as [response|error]; simpl;
    try reflexivity; apply issued_if_callback; reflexivity.
Qed.

Lemma step_settle (sys : system) i how :
  step sys (Settle i how) =
    match pending sys !! i with
    | Some (_, k) =>
        {| service := (settle k how (service sys)).1;
           pending := delete i (pending sys);
           trace := trace sys ++ (settle k how (service sys)).2 |}
    | None => sys
    end.
Proof.
  unfold NoteSearch.step, NoteSearch.react.
  destruct (pending sys !! i) as [[url k]|] eqn:Hi.
  - pose proof (settle_issues_nothing k how (service sys)) as Hk.
    destruct (settle k how (service sys)) as [this acts]. simpl in *.
    rewrite Hk, app_nil_r. reflexivity.
  - simpl. rewrite !app_nil_r.
    rewrite (delete_past_end _ _ Hi).
    destruct sys; reflexivity.
Qed.

Lemma single_flight_step (sys : system) (e : event) :
  is_execute e = false -> single_flight sys -> single_flight (step sys e).
Proof.
  intros He [Hidle Hone]. destruct e as [q scb ecb|scb fcb|i how];
    [discriminate| |].
  - destruct (_isCurrentlyFetchingResults (service sys)
              || hasReachedLastPage (service sys)) eqn:Hguard.
    + rewrite step_loadMoreData_guarded by exact Hguard. split; assumption.
    + unfold NoteSearch.step, NoteSearch.react.
      destruct (loadMoreData_unguarded (service sys) scb fcb Hguard)
        as [queryUrl ->].
      apply orb_false_iff in Hguard as [Hflag _].
      rewrite (Hidle Hflag). split; simpl; [discriminate | lia].
  - rewrite step_settle.
    destruct (pending sys !! i) as [[url k]|] eqn:Hi; [|split; assumption].
    assert (Hdel : delete i (pending sys) = []).
    { destruct (pending sys) as [|p [|p' ps]]; simpl in *;
        [discriminate | | lia].
      destruct i; [reflexivity | discriminate]. }
    split; simpl; rewrite Hdel; [reflexivity | simpl; lia].
Qed.

Lemma single_flight_run (es : list event) (sys : system) :
  forallb (fun e => negb (is_execute e)) es = true ->
  single_flight sys -> single_flight (run es sys).
Proof.
  revert sys. induction es as [|e es IH]; intros sys Hes Hsys; [exact Hsys|].
  simpl in Hes. apply andb_true_iff in Hes as [He Hes].
  rewrite run_cons. apply IH; [exact Hes|].
  apply single_flight_step; [|exact Hsys].
  destruct (is_execute e); [discriminate | reflexivity].
Qed.

Lemma trace_step (sys : system) (e : event) :
  trace (step sys e) = trace sys ++ (react e sys).2.
Proof.
  unfold NoteSearch.step. destruct (react e sys) as [this acts]. reflexivity.
Qed.

Lemma issued_app (acts1 acts2 : list action) :
  issued (acts1 ++ acts2) = issued acts1 ++ issued acts2.
Proof. apply omap_app. Qed.

Lemma success_calls_app (acts1 acts2 : list action) :
  success_calls (acts1 ++ acts2) = success_calls acts1 ++ success_calls acts2.
Proof. apply omap_app. Qed.

Lemma success_calls_if_callback {A} (cb : option A) (call : A -> action) :
  (forall f, success_calls [call f] = []) ->
  success_calls (if_callback cb call) = [].
Proof. intros Hcall. destruct cb as [f|]; [apply Hcall | reflexivity]. Qed.

Lemma success_calls_settle (k : continuation C) how this :
  success_calls (settle k how this).2 = [].
Proof.
  destruct k as [q ecb|scb], how as [response|error]; simpl;
    try reflexivity; apply success_calls_if_callback; reflexivity.
Qed.

Lemma success_calls_react (sys : system) (e : event) :
  success_calls (react e sys).2 = success_callbacks_passed [e].
Proof.
  destruct e as [q scb ecb|scb fcb|i how]; simpl.
  - destruct scb; reflexivity.
  - unfold NoteSearch.loadMoreData.
    destruct (_isCurrentlyFetchingResults (service sys)
              || hasReachedLastPage (service sys)); simpl; [|reflexivity].
    apply success_calls_if_callback. reflexivity.
  - destruct (pending sys !! i) as [[url k]|]; [|reflexivity].
    apply success_calls_settle.
Qed.

(** C1, as the code has it.  The in-flight flag guards [loadMoreData]
    only: called while the flag is up, it issues no request, queues nothing,
    leaves the outstanding fetches alone and tells the failure callback, if
    there is one, whether the last page was reached.  [executeSearchQuery]
    has no guard: every call issues one more request next to those that are
    outstanding.  Hence at most one fetch is in flight as long as only
    [loadMoreData] is called. *)
Theorem in_flight_guard_of_loadMoreData (sys : system) :
  (forall scb fcb,
     _isCurrentlyFetchingResults (service sys) = true ->
     step sys (CallLoadMoreData scb fcb) =
       {| service := service sys; pending := pending sys;
          trace := trace sys ++
            if_callback fcb
              (fun cb => CallFailure cb (hasReachedLastPage (service sys))) |}) /\
  (forall q scb ecb,
     let after_call := step sys (CallExecuteSearchQuery q scb ecb) in
     pending after_call =
       pending sys ++ [(getQueryUrl (getSearchUrlQueryString encodeURIComponent q),
                        ExecuteSearchQuery_then q ecb)] /\
     _isCurrentlyFetchingResults (service after_call) = true /\
     numSearchesInProgress (service after_call) =
       numSearchesInProgress (service sys) + 1) /\
  (forall es,
     forallb (fun e => negb (is_execute e)) es = true ->
     (_isCurrentlyFetchingResults (service sys) = false -> pending sys = []) ->
     (length (pending sys) <= 1)%nat ->
     (length (pending (run es sys)) <= 1)%nat).
Proof.
  split; [|split].
  - intros scb fcb Hflag. apply step_loadMoreData_guarded.
    rewrite Hflag. reflexivity.
  - intros q scb ecb after_call. subst after_call.
    rewrite step_executeSearchQuery. repeat split.
  - intros es Hes Hidle Hone.
    apply (single_flight_run es sys Hes). split; assumption.
Qed.

(** C3, as the code has it.  While the stored offset is [null], a call of
    [loadMoreData] issues no request and tells the failure callback, if
    there is one, that the last page was reached.  The offset stays [null],
    and so does this behaviour, until a fetch is fulfilled; when no fetch is
    outstanding, that takes a new [executeSearchQuery], and until then no
    request is issued at all. *)
Theorem last_page_is_terminal (sys : system) :
  _searchOffset (service sys) = Some Null ->
  (forall es scb fcb,
     forallb (fun e => negb (is_fulfilment e)) es = true ->
     let later := run es sys in
     _searchOffset (service later) = Some Null /\
     step later (CallLoadMoreData scb fcb) =
       {| service := service later; pending := pending later;
          trace := trace later ++ if_callback fcb (fun cb => CallFailure cb true) |}) /\
  (forall es scb fcb,
     pending sys = [] ->
     forallb (fun e => negb (is_execute e)) es = true ->
     let later := run es sys in
     _searchOffset (service later) = Some Null /\
     pending later = [] /\
     issued (trace later) = issued (trace sys) /\
     step later (CallLoadMoreData scb fcb) =
       {| service := service later; pending := pending later;
          trace := trace later ++ if_callback fcb (fun cb => CallFailure cb true) |}).
Proof.
  intros Hnull.
  assert (Hguard : forall s : system,
            _searchOffset (service s) = Some Null ->
            _isCurrentlyFetchingResults (service s)
              || hasReachedLastPage (service s) = true).
  { intros s Hs. unfold hasReachedLastPage. rewrite Hs. apply orb_true_r. }
  assert (Hlast : forall s : system,
            _searchOffset (service s) = Some Null ->
            hasReachedLastPage (service s) = true).
  { intros s Hs. unfold hasReachedLastPage. rewrite Hs. reflexivity. }
  split.
  - intros es scb fcb Hes later.
    assert (Hlater : _searchOffset (service later) = Some Null).
    { subst later. revert sys Hnull Hes.
      induction es as [|e es IH]; intros sys Hnull Hes; [exact Hnull|].
      simpl in Hes. apply andb_true_iff in Hes as [He Hes].
      rewrite run_cons. apply IH; [|exact Hes].
      destruct e as [q scb' ecb|scb' fcb'|i how].
      + rewrite step_executeSearchQuery. exact Hnull.
      + rewrite step_loadMoreData_guarded by (apply Hguard; exact Hnull).
        exact Hnull.
      + rewrite step_settle.
        destruct (pending sys !! i) as [[url k]|]; [|exact Hnull].
        destruct how as [response|error]; [discriminate|].
        destruct k; exact Hnull. }
    split; [exact Hlater|].
    rewrite step_loadMoreData_guarded by (apply Hguard; exact Hlater).
    rewrite (Hlast _ Hlater). reflexivity.
  - intros es scb0 fcb0 Hpending Hes later. subst later.
    enough (H : _searchOffset (service (run es sys)) = Some Null /\
                pending (run es sys) = [] /\
                issued (trace (run es sys)) = issued (trace sys)).
    { destruct H as (H1 & H2 & H3). repeat split; try assumption.
      rewrite step_loadMoreData_guarded by (apply Hguard; exact H1).
      rewrite (Hlast _ H1). reflexivity. }
    revert sys Hnull Hpending Hes.
    induction es as [|e es IH]; intros sys Hnull Hpending Hes; [auto|].
    simpl in Hes. apply andb_true_iff in Hes as [He Hes].
    rewrite run_cons.
    destruct e as [q scb ecb|scb fcb|i how]; [discriminate| |].
    + rewrite step_loadMoreData_guarded by (apply Hguard; exact Hnull).
      destruct (IH {| service := service sys; pending := pending sys;
                      trace := trace sys ++
                        if_callback fcb
                          (fun cb => CallFailure cb (hasReachedLastPage (service sys))) |}
                  Hnull Hpending Hes) as (H1 & H2 & H3).
      repeat split; [exact H1 | exact H2 |].
      rewrite H3. simpl. rewrite issued_app, issued_if_callback by reflexivity.
      apply app_nil_r.
    + rewrite step_settle, Hpending. simpl. apply IH; assumption.
Qed.

(** C10.  A success callback handed to [executeSearchQuery] is invoked
    within the call, right after the request is issued and while that fetch
    is still outstanding.  No handler of a settlement invokes a success
    callback, so over any run the success callbacks invoked are exactly the
    ones handed over, each once and in the order of the calls, whether the
    fetches are then fulfilled, rejected or left outstanding. *)
Theorem success_callback_runs_within_the_call (sys : system) :
  (forall q cb ecb,
     let queryUrl := getQueryUrl (getSearchUrlQueryString encodeURIComponent q) in
     let after_call := step sys (CallExecuteSearchQuery q (Some cb) ecb) in
     trace after_call =
       trace sys ++ [FetchNoteSearchResultAsync queryUrl (ExecuteSearchQuery_then q ecb);
                     CallSuccess cb] /\
     pending after_call =
       pending sys ++ [(queryUrl, ExecuteSearchQuery_then q ecb)]) /\
  (forall (k : continuation C) how this,
     success_calls (settle k how this).2 = []) /\
  (forall es,
     success_calls (trace (run es sys)) =
       success_calls (trace sys) ++ success_callbacks_passed es).
Proof.
  split; [|split].
  - intros q cb ecb queryUrl after_call. subst after_call queryUrl.
    rewrite step_executeSearchQuery. split; reflexivity.
  - apply success_calls_settle.
  - intros es. revert sys. induction es as [|e es IH]; intros sys.
    + simpl. rewrite app_nil_r. reflexivity.
    + rewrite run_cons, IH, trace_step, success_calls_app, success_calls_react.
      rewrite <- app_assoc. f_equal. symmetry.
      apply (omap_app _ [e] es).
Qed.

End Service.

(** *** Runs of a service whose callers pass numbered closures *)

Lemma in_flight_guard_of_loadMoreData_witness :
  let sys :=
    step numbered_callbacks (fun s => s) (new_system numbered_callbacks)
      (@CallExecuteSearchQuery numbered_callbacks "a" None None) in
  let es : list (event numbered_callbacks) :=
    [@CallLoadMoreData numbered_callbacks (Some 1%nat) (Some 2%nat);
     Settle 0 (Fulfil {| searchOffset := Number 5; noteSummariesList := [] |});
     @CallLoadMoreData numbered_callbacks (Some 3%nat) (Some 4%nat);
     @CallLoadMoreData numbered_callbacks (Some 5%nat) (Some 6%nat)] in
  step numbered_callbacks (fun s => s) sys
    (@CallLoadMoreData numbered_callbacks (Some 1%nat) (Some 2%nat)) =
    {| service := service sys; pending := pending sys;
       trace := trace sys ++
         [CallFailure (2%nat : FailureCallback numbered_callbacks) false] |} /\
  (length (pending (run numbered_callbacks (fun s => s) es sys)) <= 1)%nat.
Proof.
  intros sys es.
  destruct (in_flight_guard_of_loadMoreData numbered_callbacks (fun s => s) sys)
    as (Hguard & _ & Hone).
  split.
  - apply (Hguard (Some 1%nat : option (DataCallback numbered_callbacks))
             (Some 2%nat : option (FailureCallback numbered_callbacks))).
    reflexivity.
  - apply Hone.
    + reflexivity.
    + simpl. discriminate.
    + simpl. lia.
Defined.

(** C1, as stated, fails: a second [executeSearchQuery] issued while the
    fetch of the first is outstanding is not ignored; both requests are then
    in flight. *)
Lemma executeSearchQuery_is_not_guarded :
  let sys1 :=
    step numbered_callbacks (fun s => s) (new_system numbered_callbacks)
      (@CallExecuteSearchQuery numbered_callbacks "a" None None) in
  let sys2 :=
    step numbered_callbacks (fun s => s) sys1
      (@CallExecuteSearchQuery numbered_callbacks "b" None None) in
  pending sys1 = [("?q=a", ExecuteSearchQuery_then "a" None)] /\
  _isCurrentlyFetchingResults (service sys1) = true /\
  pending sys2 = [("?q=a", ExecuteSearchQuery_then "a" None);
                  ("?q=b", ExecuteSearchQuery_then "b" None)] /\
  trace sys2 =
    [FetchNoteSearchResultAsync "?q=a" (@ExecuteSearchQuery_then numbered_callbacks "a" None);
     FetchNoteSearchResultAsync "?q=b" (@ExecuteSearchQuery_then numbered_callbacks "b" None)].
Proof. repeat split. Qed.

Lemma last_page_is_terminal_witness :
  let sys :=
    run numbered_callbacks (fun s => s)
      [@CallExecuteSearchQuery numbered_callbacks "a" None None;
       Settle 0 (Fulfil {| searchOffset := Null; noteSummariesList := [7%nat] |})]
      (new_system numbered_callbacks) in
  let later :=
    run numbered_callbacks (fun s => s)
      [@CallLoadMoreData numbered_callbacks None None; @CallLoadMoreData numbered_callbacks (Some 1%nat) None] sys in
  _searchOffset (service later) = Some Null /\
  step numbered_callbacks (fun s => s) later (@CallLoadMoreData numbered_callbacks None (Some 2%nat)) =
    {| service := service later; pending := pending later;
       trace := trace later ++ [CallFailure (2%nat : FailureCallback numbered_callbacks) true] |}.
Proof.
  intros sys later.
  refine (proj1 (last_page_is_terminal numbered_callbacks (fun s => s) sys _)
            [@CallLoadMoreData numbered_callbacks None None; @CallLoadMoreData numbered_callbacks (Some 1%nat) None]
            None (Some 2%nat : option (FailureCallback numbered_callbacks)) _);
    reflexivity.
Defined.

(** C3, as stated, fails: [executeSearchQuery] is not guarded, so a
    [loadMoreData] fetch of the query before can still be outstanding when
    the [null] offset of the current query arrives; its late response
    stores an offset again, and the next [loadMoreData] issues a request
    although no [executeSearchQuery] was made in between. *)
Lemma terminal_state_left_without_new_query :
  let observed :=
    run numbered_callbacks (fun s => s)
      [@CallExecuteSearchQuery numbered_callbacks "a" None None;
       Settle 0 (Fulfil {| searchOffset := Number 1; noteSummariesList := [1%nat] |});
       @CallLoadMoreData numbered_callbacks None None;
       @CallExecuteSearchQuery numbered_callbacks "b" None None;
       Settle 1 (Fulfil {| searchOffset := Null; noteSummariesList := [2%nat] |})]
      (new_system numbered_callbacks) in
  let later :=
    run numbered_callbacks (fun s => s)
      [Settle 0 (Fulfil {| searchOffset := Number 7; noteSummariesList := [3%nat] |})]
      observed in
  _lastQuery (service observed) = Some "b" /\
  _searchOffset (service observed) = Some Null /\
  pending observed = [("?q=a&offset=1", LoadMoreData_then None)] /\
  (react numbered_callbacks (fun s => s)
     (@CallLoadMoreData numbered_callbacks None (Some 9%nat)) later).2 =
    [FetchNoteSearchResultAsync "?q=b&offset=7" (@LoadMoreData_then numbered_callbacks None)].
Proof. vm_compute. repeat split. Qed.

End NoteSearchFacts.

(** ** The home page and the search service together *)

Module NoteHomePageFacts.

Import NoteHomePage.

Section Page.

Variable MAX_NUM_CARDS_TO_DISPLAY_ON_NOTE_HOMEPAGE : Z.
Variable MAX_NUM_CARDS_TO_DISPLAY_ON_NOTE_HOMEPAGE_SEARCH : Z.
Variable FATAL_ERROR_CODES : list Z.
Variable encodeURIComponent : string -> string.

Abbreviation page_step :=
  (page_step MAX_NUM_CARDS_TO_DISPLAY_ON_NOTE_HOMEPAGE
     MAX_NUM_CARDS_TO_DISPLAY_ON_NOTE_HOMEPAGE_SEARCH
     FATAL_ERROR_CODES encodeURIComponent).
Abbreviation loadPage :=
  (loadPage MAX_NUM_CARDS_TO_DISPLAY_ON_NOTE_HOMEPAGE_SEARCH encodeURIComponent).
Abbreviation loadSearchResultsPageData :=
  (loadSearchResultsPageData MAX_NUM_CARDS_TO_DISPLAY_ON_NOTE_HOMEPAGE_SEARCH).

Lemma http_requests_perform (e : effect) (w : World) :
  http_requests (perform e w) =
    http_requests w ++ (if is_http e then [e] else []).
Proof.
  unfold http_requests. simpl. rewrite filter_app. f_equal.
  destruct e; reflexivity.
Qed.

Lemma http_requests_fetch (p : pending_fetch) (e : effect) (w : World) :
  http_requests (fetch p e w) =
    http_requests w ++ (if is_http e then [e] else []).
Proof.
  unfold http_requests. simpl. rewrite filter_app. f_equal.
  destruct e; reflexivity.
Qed.

(** The buffer after the first page of a query: the page's results alone. *)
Lemma onInitialSearchResultsLoaded_component (response : SearchResponseData) (w : World) :
  let w' := onInitialSearchResultsLoaded
              MAX_NUM_CARDS_TO_DISPLAY_ON_NOTE_HOMEPAGE_SEARCH response w in
  noteSummaries (component w') = noteSummariesList response /\
  page (component w') = 1 /\
  firstPostOnPageNum (component w') = 1 /\
  search w' = search w /\
  outstanding w' = outstanding w.
Proof.
  unfold onInitialSearchResultsLoaded.
  destruct (noteSummariesList response) as [|x l] eqn:Hl; simpl.
  - repeat split.
  - unfold NoteHomePage.loadSearchResultsPageData. simpl. rewrite Hl.
    destruct (truthy (searchOffset response)); repeat split.
Qed.

(** What holds of a rejected fetch.  When the fetch of
    [executeSearchQuery] is rejected, the component, and with it the result
    buffer, the stored last query and the stored offset are as before, the
    counter of searches goes down by one, and the error callback, if one
    was given, gets the reason: the page raises a warning with it.  When
    the fetch of [loadMoreData] is rejected, the component, the stored last
    query and the stored offset are as before as well. *)
Lemma rejected_fetch_keeps_state (w : World) (i : nat) (error : ErrorResponse) :
  (forall queryUrl q errorCallback,
     outstanding w !! i =
       Some (SearchFetch queryUrl (ExecuteSearchQuery_then q errorCallback)) ->
     let w' := page_step w (Settled i (Rejected error)) in
     component w' = component w /\
     _lastQuery (search w') = _lastQuery (search w) /\
     _searchOffset (search w') = _searchOffset (search w) /\
     _isCurrentlyFetchingResults (search w') = _isCurrentlyFetchingResults (search w) /\
     numSearchesInProgress (search w') = numSearchesInProgress (search w) - 1 /\
     outstanding w' = delete i (outstanding w) /\
     effects w' = effects w ++
       match errorCallback with
       | Some OnSearchQueryChangeExec_error =>
           [AddWarning ("Unable to fetch search results.Error: " +:+ error_error error)]
       | None => []
       end) /\
  (forall queryUrl successCallback,
     outstanding w !! i =
       Some (SearchFetch queryUrl (LoadMoreData_then successCallback)) ->
     let w' := page_step w (Settled i (Rejected error)) in
     component w' = component w /\
     _lastQuery (search w') = _lastQuery (search w) /\
     _searchOffset (search w') = _searchOffset (search w) /\
     outstanding w' = delete i (outstanding w)).
Proof.
  split.
  - intros queryUrl q errorCallback Hi w'. subst w'.
    unfold NoteHomePage.page_step. rewrite Hi. simpl.
    destruct errorCallback as [[]|]; simpl; repeat split.
    symmetry. apply app_nil_r.
  - intros queryUrl successCallback Hi w'. subst w'.
    unfold NoteHomePage.page_step. rewrite Hi. simpl. repeat split.
Qed.

Lemma loadSearchResultsPageData_requests (data : SearchResponseData) (w : World) :
  http_requests (loadSearchResultsPageData data w) = http_requests w /\
  outstanding (loadSearchResultsPageData data w) = outstanding w.
Proof.
  unfold NoteHomePage.loadSearchResultsPageData.
  rewrite http_requests_perform. simpl. rewrite app_nil_r. split; reflexivity.
Qed.

Lemma onInitialSearchResultsLoaded_requests (response : SearchResponseData) (w : World) :
  let w' := onInitialSearchResultsLoaded
              MAX_NUM_CARDS_TO_DISPLAY_ON_NOTE_HOMEPAGE_SEARCH response w in
  http_requests w' = http_requests w /\ outstanding w' = outstanding w.
Proof.
  unfold onInitialSearchResultsLoaded.
  destruct (0 <? Z.of_nat (length (noteSummariesList response))).
  - cbv zeta. rewrite http_requests_perform. cbn [is_http]. rewrite app_nil_r.
    change (outstanding (perform HideLoadingScreen ?x)) with (outstanding x).
    match goal with
    | |- context [loadSearchResultsPageData response ?x] =>
        destruct (loadSearchResultsPageData_requests response x) as [-> ->]
    end.
    split; reflexivity.
  - cbv zeta. rewrite http_requests_perform. cbn [is_http]. rewrite app_nil_r.
    split; reflexivity.
Qed.

(** No handler of a settlement makes a request: a page that is still too
    short after a response is not asked for again. *)
Lemma settled_requests_nothing (p : pending_fetch) (how : outcome) (w w' : World) :
  settled MAX_NUM_CARDS_TO_DISPLAY_ON_NOTE_HOMEPAGE
    MAX_NUM_CARDS_TO_DISPLAY_ON_NOTE_HOMEPAGE_SEARCH
    FATAL_ERROR_CODES encodeURIComponent p how w = Some w' ->
  http_requests w' = http_requests w /\ outstanding w' = outstanding w.
Proof.
  destruct p as [queryUrl [q errorCallback|successCallback]|offset k],
           how as [response|data|errorResponse];
    try destruct k; simpl; try discriminate; intros [= <-].
  1: { set (w0 := with_search w
                    (executeSearchQuery_fulfilled closures q response (search w)).1).
       apply (onInitialSearchResultsLoaded_requests response w0). }
  1: { destruct errorCallback as [[]|]; unfold call_search, run_actions; simpl;
         [rewrite http_requests_perform; cbn [is_http]; rewrite app_nil_r|];
         split; reflexivity. }
  1: { destruct successCallback as [[]|]; unfold call_search, run_actions; simpl;
         [|split; reflexivity].
       match goal with
       | |- context [loadSearchResultsPageData response ?x] =>
           destruct (loadSearchResultsPageData_requests response x) as [-> _]
       end.
       split; reflexivity. }
  all: unfold call_search, run_actions, loadInitialNoteHomePageData_fulfilled,
         loadMoreNoteSummaries_fulfilled, failed_to_get_warning; simpl;
       try match goal with
           | |- context [bool_decide ?P] => destruct (bool_decide P)
           end;
       try (rewrite http_requests_perform; cbn [is_http]; rewrite app_nil_r);
       split; reflexivity.
Qed.

(** C5, as the code has it.  With enough items in the buffer for the first
    index of the page, [loadPage] only takes the slice.  With a buffer that
    is too short it makes one request on the home page, and on the search
    page one request unless the search service is fetching or has reached
    the last page; then it makes none and raises a warning.  So a call
    makes at most one request; and the handlers that run when a fetch
    settles make none, so that asking again is left to the caller. *)
Theorem loadPage_requests (w : World) :
  let c := component w in
  let loaded := Z.of_nat (length (noteSummaries c)) in
  let loading := with_component w (set_showNoteCardsLoadingScreen c true) in
  (firstPostOnPageNum c <= loaded ->
     loadPage w = with_component w (selectNoteSummariesToShow c)) /\
  (loaded < firstPostOnPageNum c -> searchPageIsActive c = false ->
     loadPage w =
       fetch (HomePageFetch (pretty (firstPostOnPageNum c - 1)) LoadMoreNoteSummaries_then)
         (HttpGetHomePage (pretty (firstPostOnPageNum c - 1))) loading) /\
  (loaded < firstPostOnPageNum c -> searchPageIsActive c = true ->
     _isCurrentlyFetchingResults (search w) = false ->
     hasReachedLastPage (search w) = false ->
     exists queryUrl,
       loadPage w =
         fetch (SearchFetch queryUrl (@LoadMoreData_then closures (Some LoadPage_data)))
           (HttpGetSearch queryUrl)
           (with_search loading (set_isCurrentlyFetchingResults (search w) true))) /\
  (loaded < firstPostOnPageNum c -> searchPageIsActive c = true ->
     _isCurrentlyFetchingResults (search w) || hasReachedLastPage (search w) = true ->
     loadPage w =
       perform (AddWarning "No more search resutls found. End of search results.")
         loading) /\
  (length (http_requests w) <= length (http_requests (loadPage w))
     <= length (http_requests w) + 1)%nat /\
  (forall i how, http_requests (page_step w (Settled i how)) = http_requests w).
Proof.
  intros c loaded loading.
  assert (H1 : firstPostOnPageNum c <= loaded ->
               loadPage w = with_component w (selectNoteSummariesToShow c)).
  { intros H. unfold NoteHomePage.loadPage. fold c. fold loaded.
    replace (loaded <? firstPostOnPageNum c) with false
      by (symmetry; apply Z.ltb_ge; lia).
    reflexivity. }
  assert (H2 : loaded < firstPostOnPageNum c -> searchPageIsActive c = false ->
     loadPage w =
       fetch (HomePageFetch (pretty (firstPostOnPageNum c - 1)) LoadMoreNoteSummaries_then)
         (HttpGetHomePage (pretty (firstPostOnPageNum c - 1))) loading).
  { intros H Hs. unfold NoteHomePage.loadPage. fold c. fold loaded.
    replace (loaded <? firstPostOnPageNum c) with true
      by (symmetry; apply Z.ltb_lt; lia).
    simpl. fold c. rewrite Hs. reflexivity. }
  assert (H3 : loaded < firstPostOnPageNum c -> searchPageIsActive c = true ->
     _isCurrentlyFetchingResults (search w) = false ->
     hasReachedLastPage (search w) = false ->
     exists queryUrl,
       loadPage w =
         fetch (SearchFetch queryUrl (@LoadMoreData_then closures (Some LoadPage_data)))
           (HttpGetSearch queryUrl)
           (with_search loading (set_isCurrentlyFetchingResults (search w) true))).
  { intros H Hs Hf Hl. unfold NoteHomePage.loadPage. fold c. fold loaded.
    replace (loaded <? firstPostOnPageNum c) with true
      by (symmetry; apply Z.ltb_lt; lia).
    simpl. fold c. rewrite Hs. simpl.
    unfold call_search, loadMoreData. simpl. rewrite Hf, Hl. simpl.
    eexists. reflexivity. }
  assert (H4 : loaded < firstPostOnPageNum c -> searchPageIsActive c = true ->
     _isCurrentlyFetchingResults (search w) || hasReachedLastPage (search w) = true ->
     loadPage w =
       perform (AddWarning "No more search resutls found. End of search results.")
         loading).
  { intros H Hs Hg. unfold NoteHomePage.loadPage. fold c. fold loaded.
    replace (loaded <? firstPostOnPageNum c) with true
      by (symmetry; apply Z.ltb_lt; lia).
    simpl. fold c. rewrite Hs. simpl.
    unfold call_search, loadMoreData. simpl. rewrite Hg. simpl.
    unfold perform, loading. simpl. destruct w; reflexivity. }
  split; [exact H1|]. split; [exact H2|]. split; [exact H3|]. split; [exact H4|].
  split.
  2:{ intros i how. unfold NoteHomePage.page_step.
      destruct (outstanding w !! i) as [p|]; [|reflexivity].
      destruct (settled _ _ _ _ p how (without_fetch i w)) as [w'|] eqn:Hs;
        [|reflexivity].
      cbn [default from_option id].
      apply settled_requests_nothing in Hs as [-> _]. reflexivity. }
  destruct (Z_lt_le_dec loaded (firstPostOnPageNum c)) as [Hshort|Henough].
  - destruct (sumbool_of_bool (searchPageIsActive c)) as [Hs|Hs].
    + destruct (sumbool_of_bool (_isCurrentlyFetchingResults (search w)
                                 || hasReachedLastPage (search w))) as [Hg|Hg].
      * rewrite (H4 Hshort Hs Hg), http_requests_perform.
        simpl. rewrite app_nil_r. unfold http_requests. simpl. lia.
      * apply orb_false_iff in Hg as [Hf Hl].
        destruct (H3 Hshort Hs Hf Hl) as [queryUrl ->].
        rewrite http_requests_fetch, length_app.
        unfold http_requests. simpl. lia.
    + rewrite (H2 Hshort Hs), http_requests_fetch, length_app.
      unfold http_requests. simpl. lia.
  - rewrite (H1 Henough). unfold http_requests. simpl. lia.
Qed.

(** C6, as the code has it.  Submitting a query resets nothing: buffer,
    page and stored offset are as before the call.  The reset comes with
    the response, before its results are used: once the fetch of an
    [executeSearchQuery] is fulfilled, the buffer holds exactly the results
    of that response, the page is 1 and so is the first index, and the
    service has stored the query and the offset of the response. *)
Theorem new_query_resets_with_its_response (w : World) :
  (forall model,
     let w' := page_step w (SearchQueryChanged model) in
     noteSummaries (component w') = noteSummaries (component w) /\
     page (component w') = page (component w) /\
     _searchOffset (search w') = _searchOffset (search w) /\
     _lastQuery (search w') = _lastQuery (search w)) /\
  (forall i queryUrl q errorCallback response,
     outstanding w !! i =
       Some (SearchFetch queryUrl (ExecuteSearchQuery_then q errorCallback)) ->
     let w' := page_step w (Settled i (SearchFulfilled response)) in
     noteSummaries (component w') = noteSummariesList response /\
     page (component w') = 1 /\
     firstPostOnPageNum (component w') = 1 /\
     _lastQuery (search w') = Some q /\
     _searchOffset (search w') = Some (searchOffset response) /\
     _isCurrentlyFetchingResults (search w') = false /\
     outstanding w' = delete i (outstanding w)).
Proof.
  split.
  - intros model w'. subst w'. repeat split.
  - intros i queryUrl q errorCallback response Hi w'. subst w'.
    unfold NoteHomePage.page_step. rewrite Hi.
    set (w0 := with_search (without_fetch i w)
                 (executeSearchQuery_fulfilled closures q response
                    (search (without_fetch i w))).1).
    change (settled _ _ _ _ _ _ (without_fetch i w))
      with (Some (with_search
                    (onInitialSearchResultsLoaded
                       MAX_NUM_CARDS_TO_DISPLAY_ON_NOTE_HOMEPAGE_SEARCH response w0)
                    (executeSearchQuery_fulfilled_end
                       (search (onInitialSearchResultsLoaded
                          MAX_NUM_CARDS_TO_DISPLAY_ON_NOTE_HOMEPAGE_SEARCH
                          response w0))))).
    destruct (onInitialSearchResultsLoaded_component response w0)
      as (Hbuf & Hpage & Hfirst & Hsearch & Hout).
    cbn [default from_option id with_search component search outstanding].
    rewrite Hbuf, Hpage, Hfirst, Hsearch, Hout. repeat split.
Qed.

End Page.

(** *** Runs of the search page with two cards per page *)

(** C2.  The page asks the search service for the second page of a query
    and that fetch is rejected.  The buffer stays at its last good state,
    but no callback runs and no warning is raised, so the error is reported
    to no one.  The in-flight flag stays up, and the next request for that
    page is refused with the end-of-results warning.  [loadMoreData] lacks
    the rejection handler that [executeSearchQuery] passes to [then]. *)
Lemma loadMoreData_rejection_goes_unreported :
  let w :=
    page_run 10 2 [500] (fun s => s)
      [Settled 0 (SearchFulfilled
                    {| searchOffset := Number 1; noteSummariesList := [1; 2]%nat |});
       SetPage 2;
       OnPageChange None]
      (ngOnInit_with_query 2 (fun s => s) new_service (Some "q")) in
  let w' :=
    page_step 10 2 [500] (fun s => s) w
      (Settled 0 (Rejected {| status := 500; error_error := "boom" |})) in
  let w'' := page_step 10 2 [500] (fun s => s) w' (OnPageChange None) in
  outstanding w =
    [SearchFetch "?q=q&offset=1" (@LoadMoreData_then closures (Some LoadPage_data))] /\
  outstanding w' = [] /\
  noteSummaries (component w') = noteSummaries (component w) /\
  effects w' = effects w /\
  _isCurrentlyFetchingResults (search w') = true /\
  showNoteCardsLoadingScreen (component w') = true /\
  http_requests w'' = http_requests w' /\
  effects w'' =
    effects w' ++ [AddWarning "No more search resutls found. End of search results."].
Proof. vm_compute. repeat split. Qed.

Lemma loadPage_requests_witness :
  let w :=
    page_run 10 2 [500] (fun s => s)
      [Settled 0 (SearchFulfilled
                    {| searchOffset := Number 1; noteSummariesList := [1; 2]%nat |})]
      (ngOnInit_with_query 2 (fun s => s) new_service (Some "q")) in
  loadPage 2 (fun s => s) w =
    with_component w (selectNoteSummariesToShow (component w)).
Proof.
  intros w.
  apply (proj1 (loadPage_requests 10 2 [500] (fun s => s) w)).
  vm_compute. discriminate.
Defined.

(** C5, as stated, fails on the search page: asked a second time for a
    page the buffer is too short for, while the fetch of the first call is
    outstanding, [loadPage] makes no request and raises the end-of-results
    warning instead. *)
Lemma loadPage_while_fetching_requests_nothing :
  let w :=
    page_run 10 2 [500] (fun s => s)
      [Settled 0 (SearchFulfilled
                    {| searchOffset := Number 1; noteSummariesList := [1; 2]%nat |});
       SetPage 2;
       OnPageChange None]
      (ngOnInit_with_query 2 (fun s => s) new_service (Some "q")) in
  let w' := loadPage 2 (fun s => s) w in
  length (noteSummaries (component w)) = 2%nat /\
  firstPostOnPageNum (component w) = 3 /\
  http_requests w = [HttpGetSearch "?q=q"; HttpGetSearch "?q=q&offset=1"] /\
  http_requests w' = http_requests w /\
  outstanding w' = outstanding w /\
  effects w' =
    effects w ++ [AddWarning "No more search resutls found. End of search results."].
Proof. vm_compute. repeat split. Qed.

Lemma new_query_resets_with_its_response_witness :
  let w :=
    page_run 10 2 [500] (fun s => s)
      [Settled 0 (SearchFulfilled
                    {| searchOffset := Number 1; noteSummariesList := [1; 2]%nat |});
       SetPage 2;
       OnPageChange None;
       Settled 0 (SearchFulfilled
                    {| searchOffset := Number 2; noteSummariesList := [3; 4]%nat |});
       SearchQueryChanged "b"]
      (ngOnInit_with_query 2 (fun s => s) new_service (Some "a")) in
  let w' :=
    page_step 10 2 [500] (fun s => s) w
      (Settled 0 (SearchFulfilled
                    {| searchOffset := Null; noteSummariesList := [10]%nat |})) in
  noteSummaries (component w) = [1; 2; 3; 4]%nat /\
  page (component w) = 2 /\
  noteSummaries (component w') = [10]%nat /\
  page (component w') = 1 /\
  _lastQuery (search w') = Some "b" /\
  _searchOffset (search w') = Some Null.
Proof.
  intros w w'.
  destruct (proj2 (new_query_resets_with_its_response 10 2 [500] (fun s => s) w)
              0%nat "?q=b" "b" (Some OnSearchQueryChangeExec_error)
              {| searchOffset := Null; noteSummariesList := [10]%nat |} eq_refl)
    as (Hbuf & Hpage & _ & Hq & Ho & _).
  repeat split; assumption.
Defined.

(** C6, as stated, fails: the response of a [loadMoreData] fetch made for
    the query before, arriving after the reset for the new query, is
    appended to the buffer, which then holds results of both queries. *)
Lemma buffer_mixes_two_queries :
  let w :=
    page_run 10 2 [500] (fun s => s)
      [Settled 0 (SearchFulfilled
                    {| searchOffset := Number 1; noteSummariesList := [1; 2]%nat |});
       SetPage 2;
       OnPageChange None;
       SearchQueryChanged "b";
       Settled 1 (SearchFulfilled
                    {| searchOffset := Null; noteSummariesList := [10]%nat |})]
      (ngOnInit_with_query 2 (fun s => s) new_service (Some "a")) in
  let w' :=
    page_step 10 2 [500] (fun s => s) w
      (Settled 0 (SearchFulfilled
                    {| searchOffset := Number 2; noteSummariesList := [3]%nat |})) in
  http_requests w =
    [HttpGetSearch "?q=a"; HttpGetSearch "?q=a&offset=1"; HttpGetSearch "?q=b"] /\
  _lastQuery (search w) = Some "b" /\
  noteSummaries (component w) = [10]%nat /\
  outstanding w =
    [SearchFetch "?q=a&offset=1" (@LoadMoreData_then closures (Some LoadPage_data))] /\
  noteSummaries (component w') = [10; 3]%nat.
Proof. vm_compute. repeat split. Qed.

End NoteHomePageFacts.

(** * Further properties *)

(** ** The two validators of the note model *)

Module NoteModelMore.

Import NoteModel.

Section Validate.

Variable test : string -> bool.

Lemma prepublishValidate_unfold (maxTags : Z) (n : NoteData) :
  prepublishValidate test maxTags n =
    (if String.eqb (_title n) "" then [msg_title_empty]
     else if negb (test (_title n)) then [msg_title_invalid]
     else if 65 <? js_length (_title n) then [msg_title_exceeds]
     else if js_length (_title n) <? 5 then [msg_title_short]
     else [])
    ++ (if String.eqb (_content n) "" then [msg_content_empty] else []).
Proof.
  unfold prepublishValidate, push, AppConstants.MIN_CHARS_IN_NOTE_TITLE,
    AppConstants.MAX_CHARS_IN_NOTE_TITLE.
  destruct (String.eqb (_title n) ""); [|destruct (negb (test (_title n)));
    [|destruct (65 <? js_length (_title n));
      [|destruct (js_length (_title n) <? 5)]]];
    destruct (String.eqb (_content n) ""); reflexivity.
Qed.

(** X1. [validate] returns no issue exactly for the notes whose title is
    not empty, passes the valid-title pattern and has 5 to 65 characters,
    and whose content is not empty. *)
Theorem validate_accepts_iff (n : NoteData) :
  validate test n = [] <->
  _title n <> "" /\ test (_title n) = true /\
  5 <= js_length (_title n) <= 65 /\ _content n <> "".
Proof.
  rewrite NoteModelFacts.validate_unfold.
  destruct (String.eqb_spec (_title n) "") as [Ht|Ht];
    [split; [discriminate | tauto]|].
  destruct (test (_title n)); simpl;
    [|split; [discriminate | intros (_ & H & _); discriminate]].
  destruct (Z.ltb_spec (js_length (_title n)) 5);
    [split; [discriminate | lia]|].
  destruct (Z.ltb_spec 65 (js_length (_title n)));
    [split; [discriminate | lia]|].
  destruct (String.eqb_spec (_content n) "") as [Hc|Hc]; simpl.
  - split; [discriminate | tauto].
  - split; [intros _; repeat split; try assumption; lia | reflexivity].
Qed.

(** X2. [prepublishValidate] finds the same issues as [validate], whatever
    [maxTags] is; only the wording for a title of more than 65 characters
    differs.  So a note passes one exactly when it passes the other. *)
Theorem prepublishValidate_rewords_validate (maxTags : Z) (n : NoteData) :
  prepublishValidate test maxTags n =
    map (fun issue =>
           if String.eqb issue "Note title should not be more than 65 characters."
           then "Note title should not exceed 65 characters."
           else issue)
        (validate test n) /\
  (prepublishValidate test maxTags n = [] <-> validate test n = []).
Proof.
  assert (Hmap : prepublishValidate test maxTags n =
    map (fun issue =>
           if String.eqb issue "Note title should not be more than 65 characters."
           then "Note title should not exceed 65 characters."
           else issue)
        (validate test n)).
  { rewrite prepublishValidate_unfold, NoteModelFacts.validate_unfold.
    destruct (String.eqb (_title n) ""); [|destruct (negb (test (_title n)));
      [|destruct (Z.ltb_spec 65 (js_length (_title n)));
        destruct (Z.ltb_spec (js_length (_title n)) 5); try lia]];
      destruct (String.eqb (_content n) ""); reflexivity. }
  split; [exact Hmap|]. rewrite Hmap.
  destruct (validate test n); simpl; split; congruence.
Qed.

(** X3. Both validators report an empty content whatever the title is, and
    exactly then; the message comes last, and there are never more than two
    issues. *)
Theorem content_issue_iff (maxTags : Z) (n : NoteData) :
  (In "Note content should not be empty." (validate test n) <-> _content n = "") /\
  (In "Note content should not be empty." (prepublishValidate test maxTags n)
     <-> _content n = "") /\
  (_content n = "" ->
     last (validate test n) = Some "Note content should not be empty." /\
     last (prepublishValidate test maxTags n) =
       Some "Note content should not be empty.") /\
  (length (validate test n) <= 2)%nat /\
  (length (prepublishValidate test maxTags n) <= 2)%nat.
Proof.
  rewrite prepublishValidate_unfold, NoteModelFacts.validate_unfold.
  destruct (String.eqb_spec (_content n) "") as [Hc|Hc].
  - rewrite !last_snoc, !length_app.
    repeat split; try (intros; apply in_or_app; right; left; reflexivity);
      try (intros; assumption);
      repeat match goal with
             | |- context [if ?b then _ else _] => destruct b
             end; simpl; lia.
  - rewrite !app_nil_r. repeat split; try contradiction;
      try (repeat match goal with
                  | |- context [if ?b then _ else _] => destruct b
                  end; simpl; lia).
    + repeat match goal with
             | |- context [if ?b then _ else _] => destruct b
             end; simpl; intros H; repeat destruct H as [H|H];
        try discriminate H; try contradiction.
    + repeat match goal with
             | |- context [if ?b then _ else _] => destruct b
             end; simpl; intros H; repeat destruct H as [H|H];
        try discriminate H; try contradiction.
Qed.

End Validate.

Lemma content_issue_iff_witness :
  last (validate (fun _ => true) (sample_note "sampleTitle" "")) =
    Some "Note content should not be empty.".
Proof.
  destruct (content_issue_iff (fun _ => true) 0 (sample_note "sampleTitle" ""))
    as (_ & _ & Hlast & _).
  apply Hlast. reflexivity.
Defined.

End NoteModelMore.

(** ** Resetting the change dict *)

Module NoteUpdateMore.

Import NoteModel NoteUpdate.

Lemma last_set_value_app (field : string) (ms ms' : list mutation) :
  last_set_value field (ms ++ ms') =
    match last_set_value field ms' with
    | Some v => Some v
    | None => last_set_value field ms
    end.
Proof.
  induction ms as [|m ms IH]; simpl.
  - destruct (last_set_value field ms'); reflexivity.
  - rewrite IH. destruct (last_set_value field ms'); reflexivity.
Qed.

(** X4. After [setNoteChangeDictToDefault] the change dict forgets the
    setters called before: it holds the fields set since the reset, each
    with the value set last, whatever it held before.  The note keeps what
    was set before the reset in the fields that were not set again. *)
Theorem reset_forgets_earlier_changes
    (note : NoteData) (this : NoteUpdateService) (ms ms' : list mutation) :
  let before := apply_mutations ms (note, this) in
  let after :=
    apply_mutations ms' (before.1, setNoteChangeDictToDefault before.2) in
  (forall field,
     getNoteChangeDict after.2 !! field = last_set_value field ms') /\
  dom (getNoteChangeDict after.2) = mutated_fields ms' /\
  _title after.1 = default (_title note) (last_set_value "title" (ms ++ ms')) /\
  _subtitle after.1 =
    default (_subtitle note) (last_set_value "subtitle" (ms ++ ms')) /\
  _content after.1 =
    default (_content note) (last_set_value "content" (ms ++ ms')).
Proof.
  intros before after.
  assert (Hlookup : forall field,
            getNoteChangeDict after.2 !! field = last_set_value field ms').
  { intros field. subst after. unfold getNoteChangeDict.
    rewrite NoteUpdateFacts.changeDict_apply_mutations. simpl.
    destruct (last_set_value field ms'); [reflexivity | apply lookup_empty]. }
  split; [exact Hlookup|]. split.
  { apply set_eq. intros field.
    rewrite elem_of_dom, Hlookup.
    apply NoteUpdateFacts.last_set_value_is_Some. }
  destruct (NoteUpdateFacts.note_apply_mutations ms' (before.1,
              setNoteChangeDictToDefault before.2)) as (Ht & Hs & Hc & _).
  destruct (NoteUpdateFacts.note_apply_mutations ms (note, this))
    as (Ht0 & Hs0 & Hc0 & _).
  fold after in Ht, Hs, Hc. fold before in Ht0, Hs0, Hc0.
  simpl in Ht, Hs, Hc, Ht0, Hs0, Hc0.
  rewrite Ht, Hs, Hc, Ht0, Hs0, Hc0, !last_set_value_app.
  destruct (last_set_value "title" ms'), (last_set_value "subtitle" ms'),
           (last_set_value "content" ms'); repeat split.
Qed.

End NoteUpdateMore.

(** ** Removing and unpublishing on the notes page *)

Module NotesPageMore.

Import NotesPage.

Lemma indexOf_absent (arr : list NoteSummary) (x : NoteSummary) :
  (x ∉ arr) -> indexOf arr x = -1.
Proof.
  induction arr as [|y arr IH]; intros Hnot; [reflexivity|].
  simpl. destruct (Nat.eqb_spec y x) as [->|Hne].
  - exfalso. apply Hnot. left.
  - rewrite IH by (intros Hin; apply Hnot; right; exact Hin). reflexivity.
Qed.

Lemma splice_found (arr : list NoteSummary) (x : NoteSummary) :
  (x ∈ arr) ->
  exists before after,
    arr = before ++ x :: after /\ (x ∉ before) /\
    (if -1 <? indexOf arr x then splice1 arr (indexOf arr x) else arr)
      = before ++ after.
Proof.
  intros Hin.
  destruct (NotesPageFacts.indexOf_found _ _ Hin)
    as (before & after & Heq & Hnot & Hidx).
  exists before, after. repeat split; try assumption.
  rewrite Hidx.
  replace (-1 <? Z.of_nat (length before)) with true
    by (symmetry; apply Z.ltb_lt; lia).
  rewrite Heq. apply NotesPageFacts.splice1_middle.
Qed.

(** X5. Removing a summary that is in the list it is said to be in takes
    its first occurrence out of that list, leaving the other elements in
    their order, and lowers the counter of that list by one; the other list
    and its counter stay as they are. *)
Theorem removeNotesPost_present
    (noteData : NoteData) (notesPostSummary : NoteSummary) (wasPublished : bool) :
  let list_of (d : NoteData) :=
    if wasPublished then publishedNoteSummaryDicts d
    else draftNoteSummaryDicts d in
  let count_of (d : NoteData) :=
    if wasPublished then numOfPublishedNotes d else numOfDraftNotes d in
  let other_list_of (d : NoteData) :=
    if wasPublished then draftNoteSummaryDicts d
    else publishedNoteSummaryDicts d in
  let other_count_of (d : NoteData) :=
    if wasPublished then numOfDraftNotes d else numOfPublishedNotes d in
  (notesPostSummary ∈ list_of noteData) ->
  let after_call := removeNotesPost noteData notesPostSummary wasPublished in
  (exists before after,
     list_of noteData = before ++ notesPostSummary :: after /\
     (notesPostSummary ∉ before) /\
     list_of after_call = before ++ after) /\
  count_of after_call = count_of noteData - 1 /\
  other_list_of after_call = other_list_of noteData /\
  other_count_of after_call = other_count_of noteData.
Proof.
  intros list_of count_of other_list_of other_count_of Hin after_call.
  subst list_of count_of other_list_of other_count_of after_call.
  unfold removeNotesPost. destruct wasPublished; simpl in *;
    destruct (splice_found _ _ Hin) as (before & after & Heq & Hnot & Hsplice);
    (split; [exists before, after; auto | repeat split]).
Qed.

Lemma removeNotesPost_present_witness :
  let noteData :=
    {| numOfPublishedNotes := 1; numOfDraftNotes := 2;
       publishedNoteSummaryDicts := [10%nat];
       draftNoteSummaryDicts := [11%nat; 12%nat] |} in
  numOfDraftNotes (removeNotesPost noteData 12%nat false) = 1.
Proof.
  intros noteData.
  refine (proj1 (proj2 (removeNotesPost_present noteData 12%nat false _))).
  apply list_elem_of_In. simpl. auto.
Defined.

(** X6. As long as the summary is in the list it is taken from, both
    operations keep the counters equal to the lengths of the lists. *)
Theorem counts_match_preserved (noteData : NoteData) (s : NoteSummary) :
  counts_match noteData ->
  ((s ∈ publishedNoteSummaryDicts noteData) ->
     counts_match (unpublishedNotesPost noteData s) /\
     counts_match (removeNotesPost noteData s true)) /\
  ((s ∈ draftNoteSummaryDicts noteData) ->
     counts_match (removeNotesPost noteData s false)).
Proof.
  intros [Hpub Hdraft]. split.
  - intros Hin.
    destruct (splice_found _ _ Hin) as (before & after & Heq & _ & Hsplice).
    unfold counts_match, unpublishedNotesPost, removeNotesPost, unshift.
    cbn [publishedNoteSummaryDicts draftNoteSummaryDicts
         numOfPublishedNotes numOfDraftNotes].
    rewrite Hsplice, Hpub, Hdraft, Heq, !length_app. simpl. lia.
  - intros Hin.
    destruct (splice_found _ _ Hin) as (before & after & Heq & _ & Hsplice).
    unfold counts_match, removeNotesPost.
    cbn [publishedNoteSummaryDicts draftNoteSummaryDicts
         numOfPublishedNotes numOfDraftNotes].
    rewrite Hsplice, Hpub, Hdraft, Heq, !length_app. simpl. lia.
Qed.

Lemma counts_match_preserved_witness :
  let noteData :=
    {| numOfPublishedNotes := 2; numOfDraftNotes := 1;
       publishedNoteSummaryDicts := [10%nat; 11%nat];
       draftNoteSummaryDicts := [12%nat] |} in
  counts_match (unpublishedNotesPost noteData 11%nat).
Proof.
  intros noteData.
  refine (proj1 (proj1 (counts_match_preserved noteData 11%nat _) _)).
  - split; reflexivity.
  - apply list_elem_of_In. simpl. auto.
Defined.

(** X7. Neither operation checks that the summary is there.  For a summary
    that is not in the published list, unpublishing leaves that list as it
    is, still puts the summary in front of the drafts and still moves both
    counters; removing leaves both lists as they are and still lowers the
    counter.  Counters that agreed with the lists no longer do. *)
Theorem absent_summary_still_counted (noteData : NoteData) (s : NoteSummary) :
  (s ∉ publishedNoteSummaryDicts noteData) ->
  let unpublished := unpublishedNotesPost noteData s in
  let removed := removeNotesPost noteData s true in
  publishedNoteSummaryDicts unpublished = publishedNoteSummaryDicts noteData /\
  draftNoteSummaryDicts unpublished = s :: draftNoteSummaryDicts noteData /\
  numOfPublishedNotes unpublished = numOfPublishedNotes noteData - 1 /\
  numOfDraftNotes unpublished = numOfDraftNotes noteData + 1 /\
  publishedNoteSummaryDicts removed = publishedNoteSummaryDicts noteData /\
  draftNoteSummaryDicts removed = draftNoteSummaryDicts noteData /\
  numOfPublishedNotes removed = numOfPublishedNotes noteData - 1 /\
  (counts_match noteData ->
     ~ counts_match unpublished /\ ~ counts_match removed).
Proof.
  intros Hnot unpublished removed. subst unpublished removed.
  unfold unpublishedNotesPost, removeNotesPost, unshift, counts_match.
  cbn [publishedNoteSummaryDicts draftNoteSummaryDicts
       numOfPublishedNotes numOfDraftNotes].
  rewrite (indexOf_absent _ _ Hnot). simpl.
  repeat split; lia.
Qed.

Lemma absent_summary_still_counted_witness :
  let noteData :=
    {| numOfPublishedNotes := 1; numOfDraftNotes := 0;
       publishedNoteSummaryDicts := [10%nat];
       draftNoteSummaryDicts := [] |} in
  numOfPublishedNotes (removeNotesPost noteData 11%nat true) = 0 /\
  publishedNoteSummaryDicts (removeNotesPost noteData 11%nat true) = [10%nat].
Proof.
  intros noteData.
  destruct (absent_summary_still_counted noteData 11%nat)
    as (_ & _ & _ & _ & Hlist & _ & Hcount & _).
  - intros Hin. apply list_elem_of_In in Hin. simpl in Hin.
    destruct Hin as [H|[]]. discriminate H.
  - split; [exact Hcount | exact Hlist].
Defined.

(** X8. Unpublishing a summary and then removing it as a draft gives the
    same lists and counters as removing it as a published note, whether or
    not it was in the published list. *)
Theorem unpublish_then_remove_draft (noteData : NoteData) (s : NoteSummary) :
  removeNotesPost (unpublishedNotesPost noteData s) s false =
  removeNotesPost noteData s true.
Proof.
  unfold removeNotesPost, unpublishedNotesPost, unshift.
  cbn [publishedNoteSummaryDicts draftNoteSummaryDicts
       numOfPublishedNotes numOfDraftNotes indexOf].
  rewrite Nat.eqb_refl. f_equal. lia.
Qed.

End NotesPageMore.

(** ** The search service: URL queries, the search counter, continuation *)

Module NoteSearchMore.

Import NoteSearch.

Lemma split_without_separator (sep : ascii) (s : string) :
  JsString.includes sep s = false -> JsString.split sep s = [s].
Proof.
  induction s as [|c s IH]; simpl; [reflexivity|].
  intros H. apply orb_false_iff in H as [Hc Hs].
  rewrite Hc, (IH Hs). reflexivity.
Qed.

Lemma split_at_first_separator (sep : ascii) (first rest : string) :
  JsString.includes sep first = false ->
  JsString.split sep (first +:+ String sep rest) =
    first :: JsString.split sep rest.
Proof.
  induction first as [|c first IH]; simpl.
  - intros _. rewrite Ascii.eqb_refl. reflexivity.
  - intros H. apply orb_false_iff in H as [Hc Hs].
    rewrite Hc, (IH Hs). reflexivity.
Qed.

Section UrlQuery.

Variable encodeURIComponent : string -> string.
Variable decodeURIComponent : string -> option string.

(** X9. Reading back the URL written for a query gives the query, for
    every query that [decodeURIComponent] restores from its encoding and
    whose encoding has no ampersand. *)
Theorem url_query_round_trip (searchQuery : string) :
  decodeURIComponent (encodeURIComponent searchQuery) = Some searchQuery ->
  JsString.includes "&" (encodeURIComponent searchQuery) = false ->
  updateSearchFieldsBasedOnUrlQuery decodeURIComponent
    (getQueryUrl (getSearchUrlQueryString encodeURIComponent searchQuery))
  = Some searchQuery.
Proof.
  intros Hdecode Hamp.
  unfold updateSearchFieldsBasedOnUrlQuery, getQueryUrl, getSearchUrlQueryString.
  change (JsString.substring_from (String.length "?q=")
            ("?q=" +:+ encodeURIComponent searchQuery))
    with (encodeURIComponent searchQuery).
  rewrite (split_without_separator _ _ Hamp), Hdecode. reflexivity.
Qed.

(** X10. Only the first parameter of the URL query is returned, but all
    the others are decoded too: if each of them can be decoded the result
    is the decoded first parameter, and if one of them is malformed the
    call throws although the first parameter is fine. *)
Theorem url_query_further_parameters (first rest : string) :
  JsString.includes "&" first = false ->
  let result :=
    updateSearchFieldsBasedOnUrlQuery decodeURIComponent
      ("?q=" +:+ first +:+ "&" +:+ rest) in
  (Forall (fun segment => is_Some (decodeURIComponent segment))
     (JsString.split "&" rest) ->
   result = decodeURIComponent first) /\
  (Exists (fun segment => decodeURIComponent segment = None)
     (JsString.split "&" rest) ->
   result = None).
Proof.
  intros Hamp result. subst result.
  unfold updateSearchFieldsBasedOnUrlQuery.
  change (JsString.substring_from (String.length "?q=")
            ("?q=" +:+ first +:+ "&" +:+ rest))
    with (first +:+ String "&" rest).
  rewrite (split_at_first_separator _ _ _ Hamp).
  split.
  - intros Hall. apply (mapM_is_Some_2 decodeURIComponent) in Hall as [l ->].
    destruct (decodeURIComponent first); reflexivity.
  - intros Hex. apply (mapM_None_2 decodeURIComponent) in Hex. rewrite Hex.
    destruct (decodeURIComponent first); reflexivity.
Qed.

End UrlQuery.

Lemma url_query_round_trip_witness :
  updateSearchFieldsBasedOnUrlQuery Some
    (getQueryUrl (getSearchUrlQueryString (fun s => s) "protractor note")) =
  Some "protractor note".
Proof.
  apply (url_query_round_trip (fun s => s) Some "protractor note");
    reflexivity.
Defined.

Lemma url_query_further_parameters_witness :
  updateSearchFieldsBasedOnUrlQuery
    (fun s => if JsString.includes "%" s then None else Some s)
    "?q=note&lang=en&x=%" = None.
Proof.
  refine (proj2 (url_query_further_parameters
                   (fun s => if JsString.includes "%" s then None else Some s)
                   "note" "lang=en&x=%" eq_refl) _).
  simpl. apply Exists_cons_tl, Exists_cons_hd.
  reflexivity.
Defined.

End NoteSearchMore.

(** ** Runs of the search service *)

Module NoteSearchRuns.

Import NoteSearch.

Section Service.

Variable C : callback_types.
Variable encodeURIComponent : string -> string.

Abbreviation event := (event C).
Abbreviation system := (system C).
Abbreviation step := (step C encodeURIComponent).
Abbreviation run := (run C encodeURIComponent).
Abbreviation react := (react C encodeURIComponent).

Lemma outstanding_searches_app (l1 l2 : list (string * continuation C)) :
  outstanding_searches (l1 ++ l2) =
    outstanding_searches l1 + outstanding_searches l2.
Proof.
  unfold outstanding_searches. rewrite List.filter_app, length_app. lia.
Qed.

Lemma outstanding_searches_delete (l : list (string * continuation C)) i p :
  l !! i = Some p ->
  outstanding_searches l =
    outstanding_searches (delete i l) + (if is_search_fetch p then 1 else 0).
Proof.
  intros Hi. rewrite delete_take_drop.
  rewrite <- (take_drop_middle l i p Hi) at 1.
  rewrite !outstanding_searches_app.
  change (p :: drop (S i) l) with ([p] ++ drop (S i) l).
  rewrite outstanding_searches_app.
  unfold outstanding_searches at 2. simpl.
  destruct (is_search_fetch p); simpl; lia.
Qed.

(** The counter and the outstanding searches move together. *)
Lemma searches_in_progress_step (sys : system) (e : event) :
  numSearchesInProgress (service (step sys e))
    - outstanding_searches (pending (step sys e)) =
  numSearchesInProgress (service sys) - outstanding_searches (pending sys).
Proof.
  destruct e as [q scb ecb|scb fcb|i how].
  - rewrite NoteSearchFacts.step_executeSearchQuery. simpl.
    rewrite outstanding_searches_app. unfold outstanding_searches at 2.
    simpl. lia.
  - destruct (_isCurrentlyFetchingResults (service sys)
              || hasReachedLastPage (service sys)) eqn:Hguard.
    + rewrite NoteSearchFacts.step_loadMoreData_guarded by exact Hguard.
      reflexivity.
    + unfold NoteSearch.step, NoteSearch.react.
      destruct (NoteSearchFacts.loadMoreData_unguarded C encodeURIComponent
                  (service sys) scb fcb Hguard) as [queryUrl ->].
      simpl. rewrite outstanding_searches_app.
      unfold outstanding_searches at 2. simpl. lia.
  - rewrite NoteSearchFacts.step_settle.
    destruct (pending sys !! i) as [[url k]|] eqn:Hi; [|reflexivity].
    rewrite (outstanding_searches_delete _ _ _ Hi).
    destruct k, how; simpl; lia.
Qed.

(** X11. From a fresh service on, [numSearchesInProgress] is the number of
    fetches of [executeSearchQuery] that have not settled yet, so
    [isSearchInProgress] holds exactly while there is such a fetch; fetches
    of [loadMoreData] do not count. *)
Theorem searches_in_progress_counts_outstanding (es : list event) :
  let sys := run es (new_system C) in
  numSearchesInProgress (service sys) = outstanding_searches (pending sys) /\
  (isSearchInProgress (service sys) = true <->
   exists queryUrl q errorCallback,
     In (queryUrl, ExecuteSearchQuery_then q errorCallback) (pending sys)).
Proof.
  intros sys.
  assert (Hcount : numSearchesInProgress (service sys)
                   = outstanding_searches (pending sys)).
  { enough (H : forall s : system,
              numSearchesInProgress (service (run es s))
                - outstanding_searches (pending (run es s)) =
              numSearchesInProgress (service s) - outstanding_searches (pending s)).
    { assert (H0 : numSearchesInProgress (service (new_system C))
                     - outstanding_searches (pending (new_system C)) = 0)
        by reflexivity.
      specialize (H (new_system C)). rewrite H0 in H. subst sys. lia. }
    induction es as [|e es IH]; intros s; [reflexivity|].
    rewrite NoteSearchFacts.run_cons, IH. apply searches_in_progress_step. }
  split; [exact Hcount|].
  unfold isSearchInProgress. rewrite Hcount. unfold outstanding_searches.
  destruct (List.filter is_search_fetch (pending sys)) as [|p l] eqn:Hf; simpl.
  - split; [discriminate|].
    intros (queryUrl & q & ecb & Hin).
    assert (Hin' : In (queryUrl, ExecuteSearchQuery_then q ecb)
                     (List.filter is_search_fetch (pending sys)))
      by (apply List.filter_In; split; [exact Hin | reflexivity]).
    rewrite Hf in Hin'. destruct Hin'.
  - split; [intros _ | intros _; apply Z.ltb_lt; lia].
    assert (Hin : In p (List.filter is_search_fetch (pending sys)))
      by (rewrite Hf; left; reflexivity).
    apply List.filter_In in Hin as [Hin Hp].
    destruct p as [queryUrl [q ecb|scb]]; [|discriminate].
    exists queryUrl, q, ecb. exact Hin.
Qed.

(** X12. Once the fetch of an [executeSearchQuery] is fulfilled,
    [loadMoreData] continues that query from the offset of the response:
    it is refused on a [null] offset, asks for the query again without an
    offset on offset 0, and asks for the query with the offset otherwise. *)
Theorem loadMoreData_continues_fulfilled_query
    (sys : system) (i : nat) (queryUrl q : string) errorCallback
    (response : SearchResponseData) successCallback failureCallback :
  pending sys !! i = Some (queryUrl, ExecuteSearchQuery_then q errorCallback) ->
  let fulfilled := step sys (Settle i (Fulfil response)) in
  let again := getQueryUrl (getSearchUrlQueryString encodeURIComponent q) in
  (react (CallLoadMoreData successCallback failureCallback) fulfilled).2 =
    match searchOffset response with
    | Null => if_callback failureCallback (fun cb => CallFailure cb true)
    | Number n =>
        [FetchNoteSearchResultAsync
           (if n =? 0 then again else again +:+ "&offset=" +:+ pretty n)
           (LoadMoreData_then successCallback)]
    end.
Proof.
  intros Hi fulfilled again. subst fulfilled again.
  rewrite NoteSearchFacts.step_settle, Hi.
  unfold NoteSearch.react, loadMoreData, hasReachedLastPage. simpl.
  destruct (searchOffset response) as [|n]; simpl; [reflexivity|].
  destruct (n =? 0); reflexivity.
Qed.

(** X13. Only a fulfilled fetch lowers the in-flight flag.  Once it is up
    it stays up through calls and rejections, and every [loadMoreData] in
    the meantime is refused. *)
Theorem flag_lowered_only_by_fulfilment
    (sys : system) (es : list event) successCallback failureCallback :
  _isCurrentlyFetchingResults (service sys) = true ->
  forallb (fun e => negb (is_fulfilment e)) es = true ->
  let later := run es sys in
  _isCurrentlyFetchingResults (service later) = true /\
  step later (CallLoadMoreData successCallback failureCallback) =
    {| service := service later; pending := pending later;
       trace := trace later ++
         if_callback failureCallback
           (fun cb => CallFailure cb (hasReachedLastPage (service later))) |}.
Proof.
  intros Hflag Hes later.
  assert (Hlater : _isCurrentlyFetchingResults (service later) = true).
  { subst later. revert sys Hflag Hes.
    induction es as [|e es IH]; intros sys Hflag Hes; [exact Hflag|].
    simpl in Hes. apply andb_true_iff in Hes as [He Hes].
    rewrite NoteSearchFacts.run_cons. apply IH; [|exact Hes].
    destruct e as [q scb ecb|scb fcb|i how].
    - rewrite NoteSearchFacts.step_executeSearchQuery. reflexivity.
    - rewrite NoteSearchFacts.step_loadMoreData_guarded
        by (rewrite Hflag; reflexivity).
      exact Hflag.
    - rewrite NoteSearchFacts.step_settle.
      destruct (pending sys !! i) as [[url k]|]; [|exact Hflag].
      destruct how as [response|error]; [discriminate|].
      destruct k; exact Hflag. }
  split; [exact Hlater|].
  apply NoteSearchFacts.step_loadMoreData_guarded.
  rewrite Hlater. reflexivity.
Qed.

End Service.

Lemma loadMoreData_continues_fulfilled_query_witness :
  let sys :=
    step numbered_callbacks (fun s => s) (new_system numbered_callbacks)
      (@CallExecuteSearchQuery numbered_callbacks "note" None None) in
  let fulfilled :=
    step numbered_callbacks (fun s => s) sys
      (Settle 0 (Fulfil {| searchOffset := Number 10; noteSummariesList := [7%nat] |})) in
  (react numbered_callbacks (fun s => s)
     (@CallLoadMoreData numbered_callbacks None None) fulfilled).2 =
    [FetchNoteSearchResultAsync "?q=note&offset=10"
       (@LoadMoreData_then numbered_callbacks None)].
Proof.
  intros sys fulfilled.
  apply (loadMoreData_continues_fulfilled_query numbered_callbacks (fun s => s)
           sys 0 "?q=note" "note" None
           {| searchOffset := Number 10; noteSummariesList := [7%nat] |}
           None None).
  reflexivity.
Defined.

Lemma flag_lowered_only_by_fulfilment_witness :
  let sys :=
    step numbered_callbacks (fun s => s) (new_system numbered_callbacks)
      (@CallExecuteSearchQuery numbered_callbacks "note" None None) in
  let later :=
    run numbered_callbacks (fun s => s)
      [Settle 0 (Reject {| status := 500; error_error := "boom" |})] sys in
  pending later = [] /\
  _isCurrentlyFetchingResults (service later) = true.
Proof.
  intros sys later. split; [reflexivity|].
  apply (flag_lowered_only_by_fulfilment numbered_callbacks (fun s => s) sys
           [Settle 0 (Reject {| status := 500; error_error := "boom" |})]
           None None); reflexivity.
Defined.

End NoteSearchRuns.

(** ** The home page: start, paging, arrival and loss of responses *)

Module NoteHomePageMore.

Import NoteHomePage.

(** X14. The window never shows more notes than fit on a page, and shows
    notes of the buffer only, in their order; while no total is known it
    shows nothing. *)
Theorem page_window_bounded
    (c : NoteHomePageComponent) (pageNumber pageSize : Z) :
  1 <= pageNumber -> 0 <= pageSize ->
  (forall total, totalNotes c = Num total -> 0 <= total) ->
  let shown :=
    selectNoteSummariesToShow
      (calculateLastPostOnPageNum pageNumber pageSize
         (calculateFirstPostOnPageNum pageNumber pageSize c)) in
  Z.of_nat (length (noteSummariesToShow shown)) <= pageSize /\
  sublist (noteSummariesToShow shown) (noteSummaries c) /\
  (totalNotes c = Undefined -> noteSummariesToShow shown = []).
Proof.
  intros Hpage Hsize Htotal shown. subst shown.
  unfold selectNoteSummariesToShow, calculateLastPostOnPageNum,
    calculateFirstPostOnPageNum, slice, Math_min. simpl.
  set (len := Z.of_nat (length (noteSummaries c))).
  replace ((pageNumber - 1) * pageSize + 1 - 1 <? 0) with false
    by (symmetry; apply Z.ltb_ge; nia).
  split; [|split].
  - rewrite length_take, length_drop.
    destruct (totalNotes c) as [| |total] eqn:Ht; simpl.
    + lia.
    + lia.
    + specialize (Htotal total eq_refl).
      replace (Z.min (pageNumber * pageSize) total <? 0) with false
        by (symmetry; apply Z.ltb_ge; nia).
      nia.
  - etransitivity; [apply sublist_take | apply sublist_drop].
  - intros ->. simpl.
    assert (0 <= (pageNumber - 1) * pageSize) by nia. subst len.
    match goal with
    | |- take ?n _ = _ => replace n with 0%nat by lia
    end.
    reflexivity.
Qed.

Lemma page_window_bounded_witness :
  let c := set_noteSummaries (set_totalNotes (new_component false) (Num 8))
             [0; 1; 2; 3; 4; 5; 6]%nat in
  Z.of_nat
    (length
       (noteSummariesToShow
          (selectNoteSummariesToShow
             (calculateLastPostOnPageNum 2 5
                (calculateFirstPostOnPageNum 2 5 c))))) <= 5.
Proof.
  intros c.
  apply (proj1 (page_window_bounded c 2 5 ltac:(lia) ltac:(lia)
                  ltac:(intros total [= <-]; lia))).
Defined.

Lemma split_not_nil (sep : ascii) (s : string) : JsString.split sep s <> [].
Proof.
  destruct s as [|c s]; simpl; [discriminate|].
  destruct (Ascii.eqb c sep); [discriminate|].
  destruct (JsString.split sep s); discriminate.
Qed.

Section Page.

Variable MAX_NUM_CARDS_TO_DISPLAY_ON_NOTE_HOMEPAGE : Z.
Variable MAX_NUM_CARDS_TO_DISPLAY_ON_NOTE_HOMEPAGE_SEARCH : Z.
Variable FATAL_ERROR_CODES : list Z.
Variable encodeURIComponent : string -> string.
Variable decodeURIComponent : string -> option string.

Abbreviation page_step :=
  (page_step MAX_NUM_CARDS_TO_DISPLAY_ON_NOTE_HOMEPAGE
     MAX_NUM_CARDS_TO_DISPLAY_ON_NOTE_HOMEPAGE_SEARCH
     FATAL_ERROR_CODES encodeURIComponent).
Abbreviation ngOnInit :=
  (ngOnInit MAX_NUM_CARDS_TO_DISPLAY_ON_NOTE_HOMEPAGE_SEARCH encodeURIComponent
     decodeURIComponent).
Abbreviation updateSearchFieldsBasedOnUrlQuery :=
  (updateSearchFieldsBasedOnUrlQuery
     MAX_NUM_CARDS_TO_DISPLAY_ON_NOTE_HOMEPAGE_SEARCH encodeURIComponent).

(** X15. [ngOnInit] chooses its branch by whether the URL has a parameter
    [q], but the query it searches is decoded from [location.search] after
    its third character and up to the first ampersand, whatever the first
    parameter of the URL is.  Without [q] it requests the notes of the home
    page from offset 0.  With [q] it requests the search for that query,
    and makes no request at all when the query is empty; it throws exactly
    when some segment of [location.search] cannot be decoded. *)
Theorem ngOnInit_requests (s : NotePostSearchService) (urlHasQ : bool)
    (locationSearch : string) :
  let segments :=
    JsString.split "&" (JsString.substring_from 3 locationSearch) in
  match ngOnInit s urlHasQ locationSearch with
  | None =>
      urlHasQ = true /\
      Exists (fun segment => decodeURIComponent segment = None) segments
  | Some w =>
      let q :=
        if urlHasQ then default "" (head segments ≫= decodeURIComponent)
        else "" in
      (urlHasQ = false \/
       Forall (fun segment => is_Some (decodeURIComponent segment)) segments) /\
      searchPageIsActive (component w) = urlHasQ /\
      searchQuery (component w) = q /\
      http_requests w =
        (if urlHasQ then
           if String.eqb q "" then []
           else [HttpGetSearch
                   (getQueryUrl (getSearchUrlQueryString encodeURIComponent q))]
         else [HttpGetHomePage "0"]) /\
      length (outstanding w) = length (http_requests w) /\
      noteSummaries (component w) = []
  end.
Proof.
  intros segments. unfold NoteHomePage.ngOnInit.
  destruct urlHasQ; [|repeat split; left; reflexivity].
  unfold NoteSearch.updateSearchFieldsBasedOnUrlQuery.
  change (JsString.split "&"
            (JsString.substring_from (String.length "?q=") locationSearch))
    with segments.
  destruct segments as [|segment0 further] eqn:Hsegments.
  { exfalso. revert Hsegments. apply split_not_nil. }
  destruct (decodeURIComponent segment0) as [q|] eqn:Hfirst.
  - destruct (mapM decodeURIComponent further) as [decoded|] eqn:Hfurther.
    + assert (Hall : Forall (fun segment => is_Some (decodeURIComponent segment))
                       (segment0 :: further)).
      { constructor; [rewrite Hfirst; eexists; reflexivity|].
        apply (mapM_is_Some_1 decodeURIComponent). eexists. exact Hfurther. }
      cbn [head mbind option_bind]. rewrite Hfirst. cbn [default from_option id].
      destruct q as [|c q]; repeat split; right; exact Hall.
    + split; [reflexivity|]. apply Exists_cons_tl.
      apply (mapM_None_1 decodeURIComponent). exact Hfurther.
  - split; [reflexivity|]. apply Exists_cons_hd. exact Hfirst.
Qed.

(** The worlds that the runs of this development start from are results
    of [ngOnInit]: [ngOnInit_with_query s None] at any URL without a
    parameter [q], and [ngOnInit_with_query s (Some q)] at the URL that the
    page itself writes for the query [q]. *)
Lemma ngOnInit_without_q (s : NotePostSearchService) (locationSearch : string) :
  ngOnInit s false locationSearch =
  Some (ngOnInit_with_query MAX_NUM_CARDS_TO_DISPLAY_ON_NOTE_HOMEPAGE_SEARCH
          encodeURIComponent s None).
Proof. reflexivity. Qed.

Lemma ngOnInit_at_written_url (s : NotePostSearchService) (q : string) :
  decodeURIComponent (encodeURIComponent q) = Some q ->
  JsString.includes "&" (encodeURIComponent q) = false ->
  ngOnInit s true (getQueryUrl (getSearchUrlQueryString encodeURIComponent q)) =
  Some (ngOnInit_with_query MAX_NUM_CARDS_TO_DISPLAY_ON_NOTE_HOMEPAGE_SEARCH
          encodeURIComponent s (Some q)).
Proof.
  intros Hdecode Hamp.
  unfold NoteHomePage.ngOnInit, NoteSearch.updateSearchFieldsBasedOnUrlQuery,
    getQueryUrl, getSearchUrlQueryString.
  change (JsString.substring_from (String.length "?q=")
            ("?q=" +:+ encodeURIComponent q))
    with (encodeURIComponent q).
  rewrite (NoteSearchMore.split_without_separator _ _ Hamp), Hdecode.
  reflexivity.
Qed.

(** X16. Asking twice for the query of the URL searches once: the second
    call finds the query unchanged and does nothing. *)
Theorem updateSearchFieldsBasedOnUrlQuery_once (newSearchQuery : string) (w : World) :
  let once := updateSearchFieldsBasedOnUrlQuery newSearchQuery w in
  updateSearchFieldsBasedOnUrlQuery newSearchQuery once = once /\
  searchQuery (component once) = newSearchQuery.
Proof.
  unfold NoteHomePage.updateSearchFieldsBasedOnUrlQuery.
  destruct (String.eqb_spec (searchQuery (component w)) newSearchQuery)
    as [Heq|Hne]; simpl.
  - rewrite Heq, String.eqb_refl. simpl. split; reflexivity.
  - unfold onSearchQueryChangeExec, call_search. simpl.
    rewrite String.eqb_refl. simpl. split; reflexivity.
Qed.

End Page.

Lemma ngOnInit_requests_witness :
  exists w,
    ngOnInit 2 (fun s => s) Some new_service true "?lang=en&q=abc" = Some w /\
    searchQuery (component w) = "ng=en" /\
    http_requests w = [HttpGetSearch "?q=ng=en"].
Proof.
  pose proof (ngOnInit_requests 2 (fun s => s) Some new_service true
                "?lang=en&q=abc") as H.
  vm_compute in H. destruct H as (_ & _ & Hquery & Hrequests & _).
  eexists. split; [reflexivity|]. split; [exact Hquery | exact Hrequests].
Defined.

End NoteHomePageMore.

(** ** The home page: what the arrival of a response changes *)

Module NoteHomePageArrivals.

Import NoteHomePage.

Section Page.

Variable MAX_NUM_CARDS_TO_DISPLAY_ON_NOTE_HOMEPAGE : Z.
Variable MAX_NUM_CARDS_TO_DISPLAY_ON_NOTE_HOMEPAGE_SEARCH : Z.
Variable FATAL_ERROR_CODES : list Z.
Variable encodeURIComponent : string -> string.

Abbreviation page_step :=
  (page_step MAX_NUM_CARDS_TO_DISPLAY_ON_NOTE_HOMEPAGE
     MAX_NUM_CARDS_TO_DISPLAY_ON_NOTE_HOMEPAGE_SEARCH
     FATAL_ERROR_CODES encodeURIComponent).

Ltac same_buffer := exists []; rewrite app_nil_r; reflexivity.

(** X17. The buffer only grows at its end.  Apart from the arrival of the
    first page of a search and of the first page of the home page, which
    start a new buffer, every event leaves the notes loaded so far at the
    front of the buffer, in their order. *)
Theorem buffer_is_append_only (w : World) (e : page_event) :
  replaces_buffer w e = false ->
  noteSummaries (component w) `prefix_of`
    noteSummaries (component (page_step w e)).
Proof.
  intros Hkeep. destruct e as [model|p|page_arg|i how].
  - same_buffer.
  - same_buffer.
  - unfold NoteHomePage.page_step, onPageChange, loadPage, call_search,
      loadMoreData.
    destruct (searchPageIsActive (component w)) eqn:Hs; simpl; rewrite ?Hs;
      simpl;
      repeat match goal with
             | |- context [if ?b then _ else _] => destruct b
             end;
      same_buffer.
  - unfold NoteHomePage.page_step. unfold replaces_buffer in Hkeep.
    destruct (outstanding w !! i) as [fetched|]; [|same_buffer].
    destruct fetched as [queryUrl [q errorCallback|successCallback]|offset []],
             how as [response|data|errorResponse];
      try discriminate Hkeep; try same_buffer.
    + destruct errorCallback as [[]|]; same_buffer.
    + destruct successCallback as [[]|]; [|same_buffer].
      exists (noteSummariesList response). simpl.
      destruct (truthy (searchOffset response)); reflexivity.
    + unfold settled, failed_to_get_warning. cbn [default from_option id].
      destruct (bool_decide (status errorResponse ∈ FATAL_ERROR_CODES));
        same_buffer.
    + exists (noteSummaryDicts data). reflexivity.
    + unfold settled, failed_to_get_warning. cbn [default from_option id].
      destruct (bool_decide (status errorResponse ∈ FATAL_ERROR_CODES));
        same_buffer.
Qed.

(** X18. A search that finds nothing empties the buffer, goes back to
    page 1 and sets [noResultsFound]; the notes shown, the total, the last
    index and the component's offset are those of the search before, and no
    request is made. *)
Theorem empty_search_response
    (w : World) (i : nat) (queryUrl q : string) errorCallback
    (response : SearchResponseData) :
  outstanding w !! i =
    Some (SearchFetch queryUrl (ExecuteSearchQuery_then q errorCallback)) ->
  noteSummariesList response = [] ->
  let w' := page_step w (Settled i (SearchFulfilled response)) in
  noteSummaries (component w') = [] /\
  noResultsFound (component w') = Some true /\
  page (component w') = 1 /\
  firstPostOnPageNum (component w') = 1 /\
  noteSummariesToShow (component w') = noteSummariesToShow (component w) /\
  totalNotes (component w') = totalNotes (component w) /\
  lastPostOnPageNum (component w') = lastPostOnPageNum (component w) /\
  component_searchOffset (component w') = component_searchOffset (component w) /\
  _searchOffset (search w') = Some (searchOffset response) /\
  http_requests w' = http_requests w.
Proof.
  intros Hi Hempty w'.
  assert (Hhttp : http_requests w' = http_requests w).
  { subst w'. unfold NoteHomePage.page_step. rewrite Hi.
    destruct (settled _ _ _ _ _ _ (without_fetch i w)) as [w1|] eqn:Hs;
      cbn [default from_option id]; [|reflexivity].
    apply NoteHomePageFacts.settled_requests_nothing in Hs as [-> _].
    reflexivity. }
  repeat (split; [|try exact Hhttp]); subst w';
    unfold NoteHomePage.page_step; rewrite Hi;
    unfold settled, call_search, run_actions, executeSearchQuery_fulfilled;
    cbn [fold_left run_action]; unfold onInitialSearchResultsLoaded;
    rewrite Hempty; reflexivity.
Qed.

(** X19. On the home page, a page the buffer is too short for is asked
    for from the offset [(page - 1) * pageSize]; when the notes arrive they
    are appended to the buffer and the window of the page is shown. *)
Theorem home_page_loads_next_page (w : World) (data : NoteHomePageData) :
  let c := component w in
  let pageSize := MAX_NUM_CARDS_TO_DISPLAY_ON_NOTE_HOMEPAGE in
  let offset := (page c - 1) * pageSize in
  searchPageIsActive c = false ->
  Z.of_nat (length (noteSummaries c)) <= offset ->
  let asked := page_step w (OnPageChange None) in
  let loaded :=
    page_step asked (Settled (length (outstanding w)) (HomePageFulfilled data)) in
  effects asked = effects w ++ [HttpGetHomePage (pretty offset)] /\
  outstanding asked =
    outstanding w ++ [HomePageFetch (pretty offset) LoadMoreNoteSummaries_then] /\
  showNoteCardsLoadingScreen (component asked) = true /\
  noteSummaries (component loaded) = noteSummaries c ++ noteSummaryDicts data /\
  noteSummariesToShow (component loaded) =
    slice (noteSummaries c ++ noteSummaryDicts data) offset
      (Math_min (page c * pageSize) (totalNotes c)) /\
  showNoteCardsLoadingScreen (component loaded) = false /\
  outstanding loaded = outstanding w /\
  effects loaded = effects asked.
Proof.
  intros c pageSize offset Hhome Hshort asked loaded.
  assert (Hasked : asked =
    fetch (HomePageFetch (pretty offset) LoadMoreNoteSummaries_then)
      (HttpGetHomePage (pretty offset))
      (with_component w
         (set_showNoteCardsLoadingScreen
            (calculateLastPostOnPageNum (page c) pageSize
               (calculateFirstPostOnPageNum (page c) pageSize c)) true))).
  { subst asked. unfold NoteHomePage.page_step, onPageChange, loadPage.
    fold c. rewrite Hhome. cbn [negb default from_option id].
    cbn [component with_component noteSummaries firstPostOnPageNum
         calculateFirstPostOnPageNum calculateLastPostOnPageNum
         set_firstPostOnPageNum set_lastPostOnPageNum
         set_showNoteCardsLoadingScreen searchPageIsActive].
    fold c. fold pageSize.
    replace (Z.of_nat (length (noteSummaries c)) <? (page c - 1) * pageSize + 1)
      with true by (symmetry; apply Z.ltb_lt; subst offset; lia).
    rewrite Hhome. cbn [negb]. unfold loadMoreNoteSummaries.
    replace ((page c - 1) * pageSize + 1 - 1) with offset
      by (subst offset; lia).
    reflexivity. }
  assert (Hloaded : loaded =
    loadMoreNoteSummaries_fulfilled MAX_NUM_CARDS_TO_DISPLAY_ON_NOTE_HOMEPAGE
      data (without_fetch (length (outstanding w)) asked)).
  { subst loaded. unfold NoteHomePage.page_step.
    rewrite Hasked at 1. cbn [outstanding fetch with_component].
    rewrite list_lookup_middle by reflexivity. reflexivity. }
  rewrite Hloaded, Hasked.
  unfold loadMoreNoteSummaries_fulfilled, without_fetch, fetch.
  cbn [component with_component outstanding effects noteSummaries
       set_noteSummaries set_showNoteCardsLoadingScreen
       showNoteCardsLoadingScreen selectNoteSummariesToShow
       set_noteSummariesToShow noteSummariesToShow
       calculateLastPostOnPageNum calculateFirstPostOnPageNum
       set_lastPostOnPageNum set_firstPostOnPageNum firstPostOnPageNum
       lastPostOnPageNum totalNotes page].
  fold c. fold pageSize.
  replace ((page c - 1) * pageSize + 1 - 1) with offset by (subst offset; lia).
  repeat split.
  rewrite delete_middle. apply app_nil_r.
Qed.

(** X20. A rejected fetch of the home page changes nothing in the page:
    the buffer, the window and the loading flag stay as they are.  A
    warning with the server's message is raised if the status of the
    response is one of the fatal codes, and nothing is reported otherwise. *)
Theorem home_page_fetch_rejected
    (w : World) (i : nat) (offset : string) (k : home_continuation)
    (errorResponse : ErrorResponse) :
  outstanding w !! i = Some (HomePageFetch offset k) ->
  let w' := page_step w (Settled i (Rejected errorResponse)) in
  component w' = component w /\
  search w' = search w /\
  outstanding w' = delete i (outstanding w) /\
  effects w' = effects w ++
    if bool_decide (status errorResponse ∈ FATAL_ERROR_CODES)
    then [AddWarning ("Failed to get note home page data.Error: " +:+
                      error_error errorResponse)]
    else [].
Proof.
  intros Hi w'. subst w'. unfold NoteHomePage.page_step. rewrite Hi.
  destruct k; unfold settled, failed_to_get_warning;
    destruct (bool_decide (status errorResponse ∈ FATAL_ERROR_CODES));
    repeat split; simpl; rewrite ?app_nil_r; reflexivity.
Qed.

(** X21. When a further page of search results arrives, its notes are
    appended to the buffer, service and component store its offset, the
    in-flight flag and the loading flag go down, and the window of the
    current page is shown.  The total is the number of notes loaded, plus
    one exactly when the offset says there is more (an offset that is
    neither [null] nor 0). *)
Theorem next_search_page_arrives
    (w : World) (i : nat) (queryUrl : string) (response : SearchResponseData) :
  outstanding w !! i =
    Some (SearchFetch queryUrl (@LoadMoreData_then closures (Some LoadPage_data))) ->
  let w' := page_step w (Settled i (SearchFulfilled response)) in
  let buffer := noteSummaries (component w) ++ noteSummariesList response in
  let total :=
    Z.of_nat (length buffer) + (if truthy (searchOffset response) then 1 else 0) in
  let last :=
    Z.min (page (component w) * MAX_NUM_CARDS_TO_DISPLAY_ON_NOTE_HOMEPAGE_SEARCH)
      total in
  noteSummaries (component w') = buffer /\
  totalNotes (component w') = Num total /\
  lastPostOnPageNum (component w') = Num last /\
  noteSummariesToShow (component w') =
    slice buffer (firstPostOnPageNum (component w) - 1) (Num last) /\
  component_searchOffset (component w') = searchOffset response /\
  _searchOffset (search w') = Some (searchOffset response) /\
  _isCurrentlyFetchingResults (search w') = false /\
  showNoteCardsLoadingScreen (component w') = false /\
  page (component w') = page (component w) /\
  outstanding w' = delete i (outstanding w).
Proof.
  intros Hi w' buffer total last. subst w' buffer total last.
  unfold NoteHomePage.page_step. rewrite Hi.
  unfold settled, call_search, run_actions, loadMoreData_fulfilled.
  cbn [fold_left run_action if_callback default from_option id].
  unfold loadSearchResultsPageData. simpl.
  destruct (truthy (searchOffset response)); simpl;
    rewrite ?Z.add_0_r; repeat split.
Qed.

End Page.

Lemma buffer_is_append_only_witness :
  let w :=
    page_run 2 2 [500] (fun s => s)
      [Settled 0 (HomePageFulfilled
                    {| numOfPublishedNotes := 3; noteSummaryDicts := [1; 2]%nat |});
       SetPage 2;
       OnPageChange None]
      (ngOnInit_with_query 2 (fun s => s) new_service None) in
  let e :=
    Settled 0 (HomePageFulfilled
                 {| numOfPublishedNotes := 3; noteSummaryDicts := [3]%nat |}) in
  replaces_buffer w e = false /\
  [1; 2]%nat `prefix_of`
    noteSummaries (component (page_step 2 2 [500] (fun s => s) w e)).
Proof.
  intros w e. split; [reflexivity |].
  exact (buffer_is_append_only 2 2 [500] (fun s => s) w e eq_refl).
Defined.

Lemma empty_search_response_witness :
  let w := ngOnInit_with_query 2 (fun s => s) new_service (Some "q") in
  let w' :=
    page_step 10 2 [500] (fun s => s) w
      (Settled 0 (SearchFulfilled
                    {| searchOffset := Null; noteSummariesList := [] |})) in
  noResultsFound (component w') = Some true /\
  totalNotes (component w') = Undefined.
Proof.
  intros w w'.
  destruct (empty_search_response 10 2 [500] (fun s => s) w 0 "?q=q" "q"
              (Some OnSearchQueryChangeExec_error)
              {| searchOffset := Null; noteSummariesList := [] |}
              eq_refl eq_refl)
    as (_ & Hnone & _ & _ & _ & Htotal & _).
  split; [exact Hnone | exact Htotal].
Defined.

Lemma home_page_loads_next_page_witness :
  let w :=
    page_run 2 2 [500] (fun s => s)
      [Settled 0 (HomePageFulfilled
                    {| numOfPublishedNotes := 3; noteSummaryDicts := [1; 2]%nat |});
       SetPage 2]
      (ngOnInit_with_query 2 (fun s => s) new_service None) in
  let asked := page_step 2 2 [500] (fun s => s) w (OnPageChange None) in
  let loaded :=
    page_step 2 2 [500] (fun s => s) asked
      (Settled 0 (HomePageFulfilled
                    {| numOfPublishedNotes := 3; noteSummaryDicts := [3]%nat |})) in
  http_requests asked = [HttpGetHomePage "0"; HttpGetHomePage "2"] /\
  noteSummariesToShow (component loaded) = [3]%nat.
Proof.
  intros w asked loaded.
  destruct (home_page_loads_next_page 2 2 [500] (fun s => s) w
              {| numOfPublishedNotes := 3; noteSummaryDicts := [3]%nat |}
              eq_refl ltac:(vm_compute; discriminate))
    as (_ & _ & _ & _ & Hshown & _).
  split; [reflexivity | exact Hshown].
Defined.

Lemma home_page_fetch_rejected_witness :
  let w := ngOnInit_with_query 2 (fun s => s) new_service None in
  let w' :=
    page_step 2 2 [500] (fun s => s) w
      (Settled 0 (Rejected {| status := 404; error_error := "gone" |})) in
  effects w' = effects w /\ outstanding w' = [].
Proof.
  intros w w'.
  destruct (home_page_fetch_rejected 2 2 [500] (fun s => s) w 0 "0"
              LoadInitialNoteHomePageData_then
              {| status := 404; error_error := "gone" |} eq_refl)
    as (_ & _ & Hout & Heff).
  split; [etransitivity; [exact Heff | apply app_nil_r] | exact Hout].
Defined.

Lemma next_search_page_arrives_witness :
  let w :=
    page_run 10 2 [500] (fun s => s)
      [Settled 0 (SearchFulfilled
                    {| searchOffset := Number 1; noteSummariesList := [1; 2]%nat |});
       SetPage 2;
       OnPageChange None]
      (ngOnInit_with_query 2 (fun s => s) new_service (Some "q")) in
  let w' :=
    page_step 10 2 [500] (fun s => s) w
      (Settled 0 (SearchFulfilled
                    {| searchOffset := Null; noteSummariesList := [3]%nat |})) in
  noteSummaries (component w') = [1; 2; 3]%nat /\
  totalNotes (component w') = Num 3 /\
  noteSummariesToShow (component w') = [3]%nat.
Proof.
  intros w w'.
  destruct (next_search_page_arrives 10 2 [500] (fun s => s) w 0 "?q=q&offset=1"
              {| searchOffset := Null; noteSummariesList := [3]%nat |} eq_refl)
    as (Hbuf & Htotal & _ & Hshown & _).
  repeat split; assumption.
Defined.

End NoteHomePageArrivals.

(** ** The notes page service *)

Module NotesPageServiceFacts.

Import NotesPageService.

Lemma browse_snoc (first : location) (later : list location) (loc : location) :
  browse first (later ++ [loc]) = onhashchange (browse first later) loc.
Proof. unfold browse. rewrite fold_left_app. reflexivity. Qed.

Lemma setActiveTab_tab (loc : location) (this : NotesPageService) :
  _activeTab (_setActiveTab loc this).1 =
  if is_editor_hash loc then "editor_tab" else "main".
Proof.
  unfold _setActiveTab, is_editor_hash.
  destruct (JsString.startsWith (hash loc) "#/notes_post_editor"); reflexivity.
Qed.

Lemma setActiveTab_id (loc : location) (this : NotesPageService) :
  _notesPostId (_setActiveTab loc this).1 =
  if is_editor_hash loc then noteIdFromUrl loc else _notesPostId this.
Proof.
  unfold _setActiveTab, is_editor_hash.
  destruct (JsString.startsWith (hash loc) "#/notes_post_editor"); reflexivity.
Qed.

Lemma setActiveTab_effects (loc : location) (this : NotesPageService) :
  (_setActiveTab loc this).2 =
  if is_editor_hash loc then [UpdateViewEmitted]
  else [RemoveListener; UpdateViewEmitted].
Proof.
  unfold _setActiveTab, is_editor_hash.
  destruct (JsString.startsWith (hash loc) "#/notes_post_editor"); reflexivity.
Qed.

Lemma onhashchange_unfold (st : NotesPageService * list effect) (loc : location) :
  onhashchange st loc =
  ((_setActiveTab loc st.1).1, st.2 ++ (_setActiveTab loc st.1).2).
Proof.
  unfold onhashchange. destruct (_setActiveTab loc st.1); reflexivity.
Qed.

Lemma count_effect_app (e : effect) (l1 l2 : list effect) :
  count_effect e (l1 ++ l2) = (count_effect e l1 + count_effect e l2)%nat.
Proof. unfold count_effect. rewrite filter_app, length_app. reflexivity. Qed.

(** X22. The active tab follows the hash of the window.  After the service
    was created and the hash changed any number of times, the active tab
    is the editor tab exactly when the latest hash starts with
    [#/notes_post_editor]; the note id is the one read at the latest
    editor hash, and the empty string if there was none; the view was told
    to update once per hash seen, and the page-unload listener was removed
    once per hash that is not an editor hash. *)
Theorem active_tab_follows_hash (first : location) (later : list location) :
  let seen := first :: later in
  let s := (browse first later).1 in
  let log := (browse first later).2 in
  _activeTab s =
    (if is_editor_hash (List.last later first) then "editor_tab" else "main") /\
  _notesPostId s =
    default "" (noteIdFromUrl <$> last (filter is_editor_hash seen)) /\
  count_effect UpdateViewEmitted log = length seen /\
  count_effect RemoveListener log =
    length (filter (fun loc => negb (is_editor_hash loc)) seen).
Proof.
  induction later as [|loc later IH] using rev_ind.
  - cbn zeta. unfold browse, constructor. cbn [fold_left List.last].
    rewrite setActiveTab_tab, setActiveTab_id, setActiveTab_effects.
    rewrite !filter_cons, !filter_nil.
    destruct (is_editor_hash first); cbn; repeat split; reflexivity.
  - cbn zeta in *. destruct IH as (_ & Hid & Hview & Hgone).
    rewrite browse_snoc, onhashchange_unfold. cbn [fst snd].
    rewrite setActiveTab_tab, setActiveTab_id, setActiveTab_effects.
    rewrite last_last, !count_effect_app, Hview, Hgone, Hid.
    rewrite !app_comm_cons, !filter_app, !filter_cons, !filter_nil.
    rewrite !length_app, last_app.
    destruct (is_editor_hash loc); cbn; repeat split;
      try reflexivity; try lia.
Qed.

Lemma startsWith_app (s p : string) :
  JsString.startsWith s p = true -> exists rest, s = (p +:+ rest)%string.
Proof.
  unfold JsString.startsWith. revert s.
  induction p as [|a p IH]; intros s H.
  - exists s. reflexivity.
  - destruct s as [|b s]; [discriminate H|].
    cbn [String.prefix] in H.
    destruct (ascii_dec a b) as [->|]; [|discriminate H].
    destruct (IH _ H) as [rest ->]. exists rest. reflexivity.
Qed.

(** X23. A hash that starts with [#/note_editor/], the literal start of
    the editor URL template [NOTE_TAB_URLS.NOTE_EDITOR], does not select
    the editor tab: the service shows the main tab, keeps the note id it
    had and removes the page-unload listener. *)
Theorem editor_template_hash_selects_main
  (loc : location) (this : NotesPageService) :
  JsString.startsWith (hash loc) "#/note_editor/" = true ->
  _activeTab (_setActiveTab loc this).1 = "main" /\
  _notesPostId (_setActiveTab loc this).1 = _notesPostId this /\
  (_setActiveTab loc this).2 = [RemoveListener; UpdateViewEmitted].
Proof.
  intros Hstart.
  assert (Hno : is_editor_hash loc = false).
  { unfold is_editor_hash.
    destruct (startsWith_app _ _ Hstart) as [rest ->]. reflexivity. }
  rewrite setActiveTab_tab, setActiveTab_id, setActiveTab_effects, Hno.
  repeat split.
Qed.

Lemma editor_template_hash_selects_main_witness :
  _activeTab
    (_setActiveTab {| hash := "#/note_editor/abc"; noteIdFromUrl := "abc" |}
       initial).1 = "main".
Proof.
  apply (editor_template_hash_selects_main
           {| hash := "#/note_editor/abc"; noteIdFromUrl := "abc" |} initial).
  reflexivity.
Defined.

End NotesPageServiceFacts.
